(** * Atlan integration backend: token lifecycle and lineage-graph projection

    A shallow embedding of [auth_service.py] (class [AuthService]) and of
    [LineageService.get_lineage] / [get_lineage_graph] from
    [lineage_service.py], with the properties of the specification proved
    over it.

    Python values are an inductive type; the service object, the wall
    clock and the network are an explicit state threaded through a small
    state-and-exception monad.  The network and the clock are oracles:
    the k-th HTTP call and the k-th [datetime.now()] read are answered by
    an [environment], so every theorem holds for every behaviour of the
    vendor and of time. *)

From Stdlib Require Import ZArith List String Ascii Bool Lia DecimalString.
Import ListNotations.
Open Scope string_scope.
Open Scope Z_scope.
Set Warnings "-register-all".

(** ** Python values (the image of [json.loads], plus [None]) *)

(** JSON numbers are modelled as integers; fractional numbers are outside
    the model. *)
Inductive pyval : Type :=
| PNone
| PBool (b : bool)
| PInt (n : Z)
| PStr (s : string)
| PList (l : list pyval)
| PDict (d : list (string * pyval)).

(** Subclasses of [Exception] that the modelled code can meet. *)
Inductive exn : Type :=
| RequestException (msg : string)  (* requests.exceptions.RequestException and its subclasses *)
| KeyError (key : string)
| TypeError
| AttributeError
| OverflowError
| PyException (msg : string).      (* raise Exception(msg) *)

Inductive result (A : Type) : Type :=
| Ok (a : A)
| Raise (e : exn).
Arguments Ok {A} a.
Arguments Raise {A} e.

Definition is_request_exception (e : exn) : bool :=
  match e with RequestException _ => true | _ => false end.

Definition exn_str (e : exn) : string :=
  match e with
  | RequestException m => m
  | KeyError k => "'" ++ k ++ "'"
  | TypeError => "TypeError"
  | AttributeError => "AttributeError"
  | OverflowError => "OverflowError"
  | PyException m => m
  end.

(** Truth value of an object, as tested by [if x:] and [x and y]. *)
Definition truthy (v : pyval) : bool :=
  match v with
  | PNone => false
  | PBool b => b
  | PInt n => negb (n =? 0)
  | PStr s => negb (String.eqb s EmptyString)
  | PList l => match l with [] => false | _ => true end
  | PDict d => match d with [] => false | _ => true end
  end.

(** Dictionaries keep insertion order; a key is looked up from the front. *)
Fixpoint dict_lookup (k : string) (d : list (string * pyval)) : option pyval :=
  match d with
  | [] => None
  | (k', v) :: d' => if String.eqb k k' then Some v else dict_lookup k d'
  end.

(** [d.get(k)] and [d.get(k, default)] on an object that may not be a dict. *)
Definition py_get (v : pyval) (k : string) (default : pyval) : result pyval :=
  match v with
  | PDict d => Ok (match dict_lookup k d with Some x => x | None => default end)
  | _ => Raise AttributeError
  end.

(** [v[k]] with a string key. *)
Definition py_getitem (v : pyval) (k : string) : result pyval :=
  match v with
  | PDict d => match dict_lookup k d with Some x => Ok x | None => Raise (KeyError k) end
  | _ => Raise TypeError
  end.

(** Occurrence of [sub] somewhere in [s]. *)
Fixpoint str_contains (sub s : string) : bool :=
  String.prefix sub s ||
  match s with
  | EmptyString => false
  | String _ s' => str_contains sub s'
  end.

(** [k in v] for a string [k]. *)
Definition py_contains (k : string) (v : pyval) : result bool :=
  match v with
  | PDict d => Ok (match dict_lookup k d with Some _ => true | None => false end)
  | PList l => Ok (existsb (fun x => match x with PStr s => String.eqb s k | _ => false end) l)
  | PStr s => Ok (str_contains k s)
  | _ => Raise TypeError
  end.

(** The items a [for x in v] loop visits. *)
Definition py_iter (v : pyval) : result (list pyval) :=
  match v with
  | PList l => Ok l
  | PDict d => Ok (map (fun kv => PStr (fst kv)) d)
  | PStr s => Ok (map (fun c => PStr (String c EmptyString)) (list_ascii_of_string s))
  | _ => Raise TypeError
  end.

(** [s.split(sep)[0]]: the part of [s] before the first occurrence of [sep]. *)
Fixpoint split_head (sep s : string) : string :=
  match s with
  | EmptyString => EmptyString
  | String c s' => if String.prefix sep s then EmptyString else String c (split_head sep s')
  end.

Definition str_of_Z (n : Z) : string := NilZero.string_of_int (Z.to_int n).

(** ** Dates *)

(** A naive [datetime] is the number of microseconds since [datetime.min];
    a [timedelta] is a number of microseconds. *)
Definition datetime := Z.
Definition timedelta := Z.

Definition datetime_max : datetime := 3652059 * 86400 * 1000000 - 1.

(** [timedelta(seconds=v)] *)
Definition timedelta_seconds (v : pyval) : result timedelta :=
  let of_int (n : Z) :=
    if (-999999999 <=? n / 86400) && (n / 86400 <=? 999999999)
    then Ok (n * 1000000) else Raise OverflowError in
  match v with
  | PInt n => of_int n
  | PBool b => of_int (if b then 1 else 0)
  | _ => Raise TypeError
  end.

(** [t + d] *)
Definition datetime_add (t : datetime) (d : timedelta) : result datetime :=
  if (0 <=? t + d) && (t + d <=? datetime_max) then Ok (t + d) else Raise OverflowError.

(** ** HTTP *)

Inductive body : Type :=
| InvalidJson (msg : string)
| Json (v : pyval).

Record response : Type := {
  status_code : Z;
  reason : string;
  url : string;
  content : body
}.

Inductive http_outcome : Type :=
| Raised (e : exn)
| Returned (r : response).

Inductive event : Type :=
| POST (target : string) (data : list (string * pyval))
| GET (target : string) (params : list (string * pyval)) (headers : list (string * string)).

(** [response.raise_for_status()] *)
Definition raise_for_status (r : response) : result unit :=
  if (400 <=? status_code r) && (status_code r <? 500) then
    Raise (RequestException (str_of_Z (status_code r) ++ " Client Error: " ++ reason r ++ " for url: " ++ url r))
  else if (500 <=? status_code r) && (status_code r <? 600) then
    Raise (RequestException (str_of_Z (status_code r) ++ " Server Error: " ++ reason r ++ " for url: " ++ url r))
  else Ok tt.

(** [response.json()]; an undecodable body raises
    [requests.exceptions.JSONDecodeError], a [RequestException]. *)
Definition response_json (r : response) : result pyval :=
  match content r with
  | InvalidJson m => Raise (RequestException m)
  | Json v => Ok v
  end.

(** ** The service object, the world and the monad *)

Record AuthService : Type := {
  api_url : string;                 (* config.get('ATLAN_API_URL'); create_app defaults it *)
  api_key : option string;          (* config.get('ATLAN_API_KEY') *)
  client_id : option string;        (* config.get('ATLAN_CLIENT_ID') *)
  client_secret : option string;    (* config.get('ATLAN_CLIENT_SECRET') *)
  _access_token : pyval;
  _token_expiry : option datetime;
  _refresh_token : pyval
}.

(** [AuthService.__init__]: the token cache starts empty. *)
Definition init (url_ : string) (key cid csecret : option string) : AuthService :=
  {| api_url := url_; api_key := key; client_id := cid; client_secret := csecret;
     _access_token := PNone; _token_expiry := None; _refresh_token := PNone |}.

(** The oracles: what the k-th read of the clock and the k-th HTTP call
    answer. *)
Record environment : Type := {
  env_now : nat -> datetime;
  env_http : nat -> http_outcome
}.

Record state : Type := {
  self : AuthService;
  clock_reads : nat;        (* number of datetime.now() reads so far *)
  http_calls : nat;         (* number of HTTP calls so far *)
  trace : list event        (* the HTTP calls so far, oldest first *)
}.

Definition M (A : Type) : Type := environment -> state -> result A * state.

Definition ret {A} (a : A) : M A := fun _ st => (Ok a, st).
Definition raise {A} (e : exn) : M A := fun _ st => (Raise e, st).
Definition bind {A B} (m : M A) (k : A -> M B) : M B :=
  fun env st =>
    match m env st with
    | (Ok a, st') => k a env st'
    | (Raise e, st') => (Raise e, st')
    end.
Definition lift {A} (r : result A) : M A := fun _ st => (r, st).

(** [try: m except <filter> as e: handler e]; the state changes made by
    [m] before it raised are kept. *)
Definition try_except {A} (m : M A) (filter : exn -> bool) (handler : exn -> M A) : M A :=
  fun env st =>
    match m env st with
    | (Ok a, st') => (Ok a, st')
    | (Raise e, st') => if filter e then handler e env st' else (Raise e, st')
    end.

Declare Scope monad_scope.
Delimit Scope monad_scope with monad.
Notation "x <- m ;; k" := (bind m (fun x => k))
  (at level 61, m at next level, right associativity) : monad_scope.
Notation "m ;;; k" := (bind m (fun _ => k))
  (at level 61, right associativity) : monad_scope.
Open Scope monad_scope.

Definition get_self : M AuthService := fun _ st => (Ok (self st), st).
Definition set_self (a : AuthService) : M unit :=
  fun _ st => (Ok tt, {| self := a; clock_reads := clock_reads st;
                         http_calls := http_calls st; trace := trace st |}).

Definition set_access_token (v : pyval) : M unit :=
  a <- get_self ;;
  set_self {| api_url := api_url a; api_key := api_key a; client_id := client_id a;
              client_secret := client_secret a;
              _access_token := v; _token_expiry := _token_expiry a;
              _refresh_token := _refresh_token a |}.
Definition set_refresh_token (v : pyval) : M unit :=
  a <- get_self ;;
  set_self {| api_url := api_url a; api_key := api_key a; client_id := client_id a;
              client_secret := client_secret a;
              _access_token := _access_token a; _token_expiry := _token_expiry a;
              _refresh_token := v |}.
Definition set_token_expiry (t : datetime) : M unit :=
  a <- get_self ;;
  set_self {| api_url := api_url a; api_key := api_key a; client_id := client_id a;
              client_secret := client_secret a;
              _access_token := _access_token a; _token_expiry := Some t;
              _refresh_token := _refresh_token a |}.

(** [datetime.now()] *)
Definition datetime_now : M datetime :=
  fun env st => (Ok (env_now env (clock_reads st)),
                 {| self := self st; clock_reads := S (clock_reads st);
                    http_calls := http_calls st; trace := trace st |}).

(** One HTTP call: it is recorded, and the oracle answers it. *)
Definition http (ev : event) : M response :=
  fun env st =>
    let st' := {| self := self st; clock_reads := clock_reads st;
                  http_calls := S (http_calls st); trace := trace st ++ [ev] |} in
    match env_http env (http_calls st) with
    | Raised e => (Raise e, st')
    | Returned r => (Ok r, st')
    end.

Definition requests_post (target : string) (data : list (string * pyval)) : M response :=
  http (POST target data).
Definition requests_get (target : string) (params : list (string * pyval))
    (headers : list (string * string)) : M response :=
  http (GET target params headers).

Definition opt_str (o : option string) : pyval :=
  match o with Some s => PStr s | None => PNone end.

Definition rbind {A B} (r : result A) (k : A -> result B) : result B :=
  match r with
  | Ok a => k a
  | Raise e => Raise e
  end.

(** ** Lineage graph view *)

Record node : Type := {
  node_id : pyval;
  node_label : pyval;
  node_type : pyval;
  node_data : pyval
}.

Record edge : Type := {
  edge_id : string;
  edge_source : pyval;
  edge_target : pyval;
  edge_label : pyval;
  edge_data : pyval
}.

Record graph : Type := {
  nodes : list node;
  edges : list edge
}.

Section Service.

(** [str(v)] of a value that is not a [str] is CPython's business and is
    left abstract; [str(s)] of a string is [s]. *)
Variable str_other : pyval -> string.

Definition py_str (v : pyval) : string :=
  match v with
  | PStr s => s
  | _ => str_other v
  end.

(** *** [auth_service.py] *)

Definition _get_new_access_token : M unit :=
  a <- get_self ;;
  let target := split_head "/api" (api_url a) ++ "/oauth/token" in
  let payload := [("grant_type", PStr "client_credentials");
                  ("client_id", opt_str (client_id a));
                  ("client_secret", opt_str (client_secret a))] in
  try_except
    (response <- requests_post target payload ;;
     lift (raise_for_status response) ;;;
     data <- lift (response_json response) ;;
     access <- lift (py_get data "access_token" PNone) ;;
     set_access_token access ;;;
     refresh <- lift (py_get data "refresh_token" PNone) ;;
     set_refresh_token refresh ;;;
     expires_in <- lift (py_get data "expires_in" (PInt 3600)) ;;
     now <- datetime_now ;;
     delta <- lift (timedelta_seconds expires_in) ;;
     expiry <- lift (datetime_add now delta) ;;
     set_token_expiry expiry)
    is_request_exception
    (fun e => raise (PyException ("Authentication failed: " ++ exn_str e))).

Definition _refresh_access_token : M unit :=
  a <- get_self ;;
  let target := split_head "/api" (api_url a) ++ "/oauth/token" in
  let payload := [("grant_type", PStr "refresh_token");
                  ("refresh_token", _refresh_token a);
                  ("client_id", opt_str (client_id a));
                  ("client_secret", opt_str (client_secret a))] in
  try_except
    (response <- requests_post target payload ;;
     lift (raise_for_status response) ;;;
     data <- lift (response_json response) ;;
     access <- lift (py_get data "access_token" PNone) ;;
     set_access_token access ;;;
     refresh <- lift (py_get data "refresh_token" PNone) ;;
     set_refresh_token refresh ;;;
     expires_in <- lift (py_get data "expires_in" (PInt 3600)) ;;
     now <- datetime_now ;;
     delta <- lift (timedelta_seconds expires_in) ;;
     expiry <- lift (datetime_add now delta) ;;
     set_token_expiry expiry)
    is_request_exception
    (fun e => raise (PyException ("Token refresh failed: " ++ exn_str e))).

(** The guard of [get_access_token]:
    [self._access_token and self._token_expiry and datetime.now() < self._token_expiry].
    [and] short-circuits: the clock is read only when a token and an expiry
    are cached. *)
Definition token_is_valid : M bool :=
  a <- get_self ;;
  if truthy (_access_token a) then
    match _token_expiry a with
    | Some expiry => now <- datetime_now ;; ret (now <? expiry)
    | None => ret false
    end
  else ret false.

Definition get_access_token : M pyval :=
  valid <- token_is_valid ;;
  if valid then
    a <- get_self ;; ret (_access_token a)
  else
    a <- get_self ;;
    refreshed <-
      (if truthy (_refresh_token a) then
         try_except
           (_refresh_access_token ;;;
            a' <- get_self ;; ret (Some (_access_token a')))
           (fun _ => true)
           (fun _ => ret None)
       else ret None) ;;
    match refreshed with
    | Some token => ret token
    | None =>
        _get_new_access_token ;;;
        a' <- get_self ;; ret (_access_token a')
    end.

(** The test [if self.api_key:] of [get_headers]. *)
Definition api_key_configured (a : AuthService) : bool :=
  truthy (opt_str (api_key a)).

Definition get_headers : M (list (string * string)) :=
  let headers := [("Content-Type", "application/json"); ("Accept", "application/json")] in
  let bearer :=
    token <- get_access_token ;;
    ret (headers ++ [("Authorization", ("Bearer " ++ py_str token)%string)])%list in
  a <- get_self ;;
  match api_key a with
  | Some k =>
      if truthy (PStr k) then ret (headers ++ [("X-Atlan-API-Key", k)])%list
      else bearer
  | None => bearer
  end.

Definition validate_token (token : pyval) : M bool :=
  a <- get_self ;;
  let target := split_head "/api" (api_url a) ++ "/api/v2/users/current" in
  let headers := [("Authorization", "Bearer " ++ py_str token)] in
  try_except
    (response <- requests_get target [] headers ;;
     ret (status_code response =? 200))
    (fun _ => true)
    (fun _ => ret false).

(** *** [lineage_service.py] *)

(** [LineageService] reads its base URL from the same configuration key as
    the [AuthService] it holds. *)
Definition get_lineage (guid direction depth include_process : pyval) : M pyval :=
  a <- get_self ;;
  let target := api_url a ++ "/lineage" in
  let params := [("guid", guid); ("direction", direction); ("depth", depth);
                 ("includeProcess", include_process)] in
  try_except
    (headers <- get_headers ;;
     response <- requests_get target params headers ;;
     lift (raise_for_status response) ;;;
     lift (response_json response))
    is_request_exception
    (fun e => raise (PyException ("Failed to get lineage: " ++ exn_str e))).

(** The dict literal built for one entity; its items are evaluated in
    source order. *)
Definition make_node (entity : pyval) : result node :=
  rbind (py_getitem entity "guid") (fun id =>
  rbind (py_getitem entity "attributes") (fun attributes =>
  rbind (py_get attributes "name" (PStr "Unknown")) (fun label =>
  rbind (py_getitem entity "typeName") (fun ty =>
  Ok {| node_id := id; node_label := label; node_type := ty; node_data := entity |})))).

Definition make_edge (relation : pyval) : result edge :=
  rbind (py_getitem relation "fromEntityGuid") (fun from1 =>
  rbind (py_getitem relation "toEntityGuid") (fun to1 =>
  rbind (py_getitem relation "fromEntityGuid") (fun from2 =>
  rbind (py_getitem relation "toEntityGuid") (fun to2 =>
  rbind (py_get relation "relationshipType" (PStr "Unknown")) (fun label =>
  Ok {| edge_id := py_str from1 ++ "_" ++ py_str to1;
        edge_source := from2; edge_target := to2;
        edge_label := label; edge_data := relation |}))))).

(** [for item in items: acc.append(make item)] *)
Fixpoint append_each {A} (make : pyval -> result A) (acc : list A) (items : list pyval)
    : result (list A) :=
  match items with
  | [] => Ok acc
  | item :: rest => rbind (make item) (fun x => append_each make (acc ++ [x]) rest)
  end.

(** The transformation of [get_lineage_graph] from the raw lineage data to
    the graph (from [graph = {...}] to [return graph]). *)
Definition lineage_graph (lineage_data : pyval) : result graph :=
  rbind (py_contains "entities" lineage_data) (fun has_entities =>
  rbind (if has_entities then
           rbind (py_getitem lineage_data "entities") (fun entities =>
           rbind (py_iter entities) (fun items =>
           append_each make_node [] items))
         else Ok []) (fun ns =>
  rbind (py_contains "relations" lineage_data) (fun has_relations =>
  rbind (if has_relations then
           rbind (py_getitem lineage_data "relations") (fun relations =>
           rbind (py_iter relations) (fun items =>
           append_each make_edge [] items))
         else Ok []) (fun es =>
  Ok {| nodes := ns; edges := es |})))).

Definition get_lineage_graph (guid direction depth include_process : pyval) : M graph :=
  lineage_data <- get_lineage guid direction depth include_process ;;
  lift (lineage_graph lineage_data).

End Service.

(** ** Vocabulary of the properties *)

(** The credential state of the specification. *)
Definition credentials (a : AuthService) : pyval * pyval * option datetime :=
  (_access_token a, _refresh_token a, _token_expiry a).

(** The state [VALID] at a clock reading [now]: a token is cached (it
    passes the truth test of the guard) and [now] is before the expiry. *)
Definition cache_valid (a : AuthService) (now : datetime) : bool :=
  truthy (_access_token a) &&
  match _token_expiry a with
  | Some expiry => now <? expiry
  | None => false
  end.

(** The state a call of [get_access_token] sees, at the clock reading the
    call would make. *)
Definition cached_token_valid (env : environment) (st : state) : bool :=
  cache_valid (self st) (env_now env (clock_reads st)).

Definition oauth_target (a : AuthService) : string :=
  split_head "/api" (api_url a) ++ "/oauth/token".

(** The credential-grant (mint) and the refresh-grant requests. *)
Definition mint_request (a : AuthService) : event :=
  POST (oauth_target a)
       [("grant_type", PStr "client_credentials");
        ("client_id", opt_str (client_id a));
        ("client_secret", opt_str (client_secret a))].

Definition refresh_request (a : AuthService) : event :=
  POST (oauth_target a)
       [("grant_type", PStr "refresh_token");
        ("refresh_token", _refresh_token a);
        ("client_id", opt_str (client_id a));
        ("client_secret", opt_str (client_secret a))].

Definition grant_type (ev : event) : option pyval :=
  match ev with
  | POST _ data => dict_lookup "grant_type" data
  | GET _ _ _ => None
  end.

(** The message of the request error an HTTP outcome amounts to for the
    token endpoints: the call raised a [RequestException], the status is an
    error status, or the body is not JSON. *)
Definition request_error (o : http_outcome) : option string :=
  match o with
  | Raised (RequestException m) => Some m
  | Raised _ => None
  | Returned r =>
      match raise_for_status r with
      | Raise e => Some (exn_str e)
      | Ok _ =>
          match content r with
          | InvalidJson m => Some m
          | Json _ => None
          end
      end
  end.

(** The outbound call succeeded and delivered a JSON object. *)
Definition delivered (o : http_outcome) (d : list (string * pyval)) : Prop :=
  exists r, o = Returned r /\ raise_for_status r = Ok tt /\ content r = Json (PDict d).

Definition dict_get (d : list (string * pyval)) (k : string) (default : pyval) : pyval :=
  match dict_lookup k d with
  | Some v => v
  | None => default
  end.

(** The lifetime in seconds a token response announces: [expires_in], and
    3600 when the key is absent. *)
Definition expires_in_seconds (d : list (string * pyval)) : option Z :=
  match dict_lookup "expires_in" d with
  | None => Some 3600
  | Some (PInt n) => Some n
  | Some (PBool b) => Some (if b then 1 else 0)
  | Some _ => None
  end.

Definition after_call (st : state) (ev : event) : state :=
  {| self := self st; clock_reads := clock_reads st;
     http_calls := S (http_calls st); trace := trace st ++ [ev] |}.

Definition after_reads (st : state) (n : nat) : state :=
  {| self := self st; clock_reads := (clock_reads st + n)%nat;
     http_calls := http_calls st; trace := trace st |}.

(** [n] consecutive calls of [get_access_token], with their results. *)
Fixpoint get_access_token_times (n : nat) : M (list pyval) :=
  match n with
  | O => ret []
  | S k =>
      token <- get_access_token ;;
      tokens <- get_access_token_times k ;;
      ret (token :: tokens)
  end.

(** The try block shared, word for word, by [_get_new_access_token] and
    [_refresh_access_token], with its handler. *)
Definition token_grant (ev : event) (prefix : string) : M unit :=
  try_except
    (response <- http ev ;;
     lift (raise_for_status response) ;;;
     data <- lift (response_json response) ;;
     access <- lift (py_get data "access_token" PNone) ;;
     set_access_token access ;;;
     refresh <- lift (py_get data "refresh_token" PNone) ;;
     set_refresh_token refresh ;;;
     expires_in <- lift (py_get data "expires_in" (PInt 3600)) ;;
     now <- datetime_now ;;
     delta <- lift (timedelta_seconds expires_in) ;;
     expiry <- lift (datetime_add now delta) ;;
     set_token_expiry expiry)
    is_request_exception
    (fun e => raise (PyException (prefix ++ exn_str e))).

(** The sequence under a key of the raw payload that the projection walks
    through: empty when the key is absent. *)
Definition payload_sequence (key : string) (payload : pyval) : list pyval :=
  match payload with
  | PDict d =>
      match dict_lookup key d with
      | Some v => match py_iter v with Ok l => l | Raise _ => [] end
      | None => []
      end
  | _ => []
  end.

(** Node [n] is the projection of [entity]. *)
Definition node_of (entity : pyval) (n : node) : Prop :=
  py_getitem entity "guid" = Ok (node_id n) /\
  py_getitem entity "typeName" = Ok (node_type n) /\
  (exists attributes,
      py_getitem entity "attributes" = Ok (PDict attributes) /\
      node_label n = dict_get attributes "name" (PStr "Unknown")) /\
  node_data n = entity.

(** Edge [e] is the projection of [relation]. *)
Definition edge_of (str_other : pyval -> string) (relation : pyval) (e : edge) : Prop :=
  exists fields from_guid to_guid,
    relation = PDict fields /\
    dict_lookup "fromEntityGuid" fields = Some from_guid /\
    dict_lookup "toEntityGuid" fields = Some to_guid /\
    edge_id e = py_str str_other from_guid ++ "_" ++ py_str str_other to_guid /\
    edge_source e = from_guid /\
    edge_target e = to_guid /\
    edge_label e = dict_get fields "relationshipType" (PStr "Unknown") /\
    edge_data e = relation.

(** Payloads in which every field of an entity and of a relation is
    optional: a mapping whose [entities] and [relations], when present, are
    lists of mappings, and [attributes], when present, is a mapping. *)
Definition is_dict (v : pyval) : bool :=
  match v with PDict _ => true | _ => false end.

Definition loose_entity (v : pyval) : bool :=
  match v with
  | PDict d => match dict_lookup "attributes" d with Some a => is_dict a | None => true end
  | _ => false
  end.

Definition loose_payload (payload : pyval) : bool :=
  match payload with
  | PDict d =>
      match dict_lookup "entities" d with
      | Some (PList l) => forallb loose_entity l
      | Some _ => false
      | None => true
      end &&
      match dict_lookup "relations" d with
      | Some (PList l) => forallb is_dict l
      | Some _ => false
      | None => true
      end
  | _ => false
  end.

(** Payloads with the fields the projection subscripts: [guid],
    [typeName] and [attributes] (a mapping) in every entity,
    [fromEntityGuid] and [toEntityGuid] in every relation; [name] and
    [relationshipType] stay optional. *)
Definition has_key (k : string) (d : list (string * pyval)) : bool :=
  match dict_lookup k d with Some _ => true | None => false end.

Definition complete_entity (v : pyval) : bool :=
  match v with
  | PDict d =>
      has_key "guid" d && has_key "typeName" d &&
      match dict_lookup "attributes" d with Some a => is_dict a | None => false end
  | _ => false
  end.

Definition complete_relation (v : pyval) : bool :=
  match v with
  | PDict d => has_key "fromEntityGuid" d && has_key "toEntityGuid" d
  | _ => false
  end.

Definition complete_payload (payload : pyval) : bool :=
  match payload with
  | PDict d =>
      match dict_lookup "entities" d with
      | Some (PList l) => forallb complete_entity l
      | Some _ => false
      | None => true
      end &&
      match dict_lookup "relations" d with
      | Some (PList l) => forallb complete_relation l
      | Some _ => false
      | None => true
      end
  | _ => false
  end.

(** [str] on the scalars, used where a concrete instance of [str_other] is
    needed. *)
Definition str_scalar (v : pyval) : string :=
  match v with
  | PNone => "None"
  | PBool true => "True"
  | PBool false => "False"
  | PInt n => str_of_Z n
  | _ => EmptyString
  end.

(** The service object after a token response has been stored. *)
Definition with_tokens (a : AuthService) (access refresh : pyval) : AuthService :=
  {| api_url := api_url a; api_key := api_key a; client_id := client_id a;
     client_secret := client_secret a;
     _access_token := access; _token_expiry := _token_expiry a;
     _refresh_token := refresh |}.

Definition with_expiry (a : AuthService) (t : datetime) : AuthService :=
  {| api_url := api_url a; api_key := api_key a; client_id := client_id a;
     client_secret := client_secret a;
     _access_token := _access_token a; _token_expiry := Some t;
     _refresh_token := _refresh_token a |}.

Definition with_self (st : state) (a : AuthService) : state :=
  {| self := a; clock_reads := clock_reads st;
     http_calls := http_calls st; trace := trace st |}.

(** The state in which the guard of [get_access_token] leaves the world:
    it has read the clock when a token and an expiry were cached. *)
Definition after_guard (st : state) : state :=
  if truthy (_access_token (self st)) then
    match _token_expiry (self st) with
    | Some _ => after_reads st 1
    | None => st
    end
  else st.

Definition is_refresh_grant (ev : event) : bool :=
  match grant_type ev with
  | Some (PStr g) => String.eqb g "refresh_token"
  | _ => false
  end.

Definition is_credential_grant (ev : event) : bool :=
  match grant_type ev with
  | Some (PStr g) => String.eqb g "client_credentials"
  | _ => false
  end.

(** The last two statements of [get_access_token]: mint, then return the
    cached token. *)
Definition mint_and_return (env : environment) (st : state) : result pyval * state :=
  match _get_new_access_token env st with
  | (Ok _, st') => (Ok (_access_token (self st')), st')
  | (Raise e, st') => (Raise e, st')
  end.

(** The example payload of the specification and its graph. *)
Definition example_entity : pyval :=
  PDict [("guid", PStr "a1"); ("typeName", PStr "Table");
         ("attributes", PDict [("name", PStr "orders")])].

Definition example_relation : pyval :=
  PDict [("fromEntityGuid", PStr "a1"); ("toEntityGuid", PStr "a2");
         ("relationshipType", PStr "DataFlow")].

Definition example_payload : pyval :=
  PDict [("entities", PList [example_entity]); ("relations", PList [example_relation])].

Definition example_graph : graph :=
  {| nodes := [{| node_id := PStr "a1"; node_label := PStr "orders";
                  node_type := PStr "Table"; node_data := example_entity |}];
     edges := [{| edge_id := "a1_a2"; edge_source := PStr "a1"; edge_target := PStr "a2";
                  edge_label := PStr "DataFlow"; edge_data := example_relation |}] |}.

(** An entity without its guid, every other field in place. *)
Definition payload_without_guid : pyval :=
  PDict [("entities",
          PList [PDict [("typeName", PStr "Table");
                        ("attributes", PDict [("name", PStr "orders")])]])].


(** A service in credential-grant mode, freshly started, and a vendor
    that answers every token request with the same token, valid for a
    minute; the k-th clock reading is k seconds. *)
Definition example_service : AuthService :=
  init "https://tenant.atlan.com/api/meta" None (Some "client") (Some "secret").

Definition example_state : state :=
  {| self := example_service; clock_reads := 0; http_calls := 0; trace := [] |}.

Definition token_response : http_outcome :=
  Returned {| status_code := 200; reason := "OK";
              url := "https://tenant.atlan.com/oauth/token";
              content := Json (PDict [("access_token", PStr "T1");
                                      ("refresh_token", PStr "R1");
                                      ("expires_in", PInt 60)]) |}.

Definition unauthorized : http_outcome :=
  Returned {| status_code := 401; reason := "Unauthorized";
              url := "https://tenant.atlan.com/oauth/token";
              content := InvalidJson "Expecting value: line 1 column 1 (char 0)" |}.

Definition example_env : environment :=
  {| env_now := fun k => 1000000 * Z.of_nat k; env_http := fun _ => token_response |}.

(** The state the first call of [get_access_token] leaves. *)
Definition minted_state : state :=
  {| self := with_expiry (with_tokens example_service (PStr "T1") (PStr "R1")) 60000000;
     clock_reads := 1; http_calls := 1;
     trace := [mint_request example_service] |}.

(** A stale cache with a refresh token, and a vendor that rejects the
    first token request and answers the second. *)
Definition stale_state : state :=
  {| self := with_expiry (with_tokens example_service (PStr "T0") (PStr "R0")) 500000;
     clock_reads := 1; http_calls := 0; trace := [] |}.

Definition rejecting_env : environment :=
  {| env_now := fun k => 1000000 * Z.of_nat k;
     env_http := fun k => match k with O => unauthorized | _ => token_response end |}.

(** A service in API-key mode with no client id and no client secret. *)
Definition api_key_state : state :=
  {| self := init "https://tenant.atlan.com/api/meta" (Some "key-123") None None;
     clock_reads := 0; http_calls := 0; trace := [] |}.

(** ** The rest of the two services and the authentication routes *)

(** [s.split(c)] for a one-character separator: every occurrence cuts, so
    consecutive separators give empty pieces. *)
Fixpoint split_char (c : ascii) (s : string) : list string :=
  match s with
  | EmptyString => [EmptyString]
  | String a s' =>
      if Ascii.eqb a c then EmptyString :: split_char c s'
      else match split_char c s' with
           | piece :: rest => String a piece :: rest
           | [] => [String a EmptyString]
           end
  end.

(** What a Flask view returns: [jsonify(body), status]. *)
Definition flask_response : Type := (pyval * Z)%type.

(** The error body every view builds. *)
Definition error_body (code message details : string) : pyval :=
  PDict [("error", PDict [("code", PStr code); ("message", PStr message);
                          ("details", PStr details)])].

(** The JSON a successful call delivers, whatever its shape. *)
Definition json_body (o : http_outcome) (v : pyval) : Prop :=
  exists r, o = Returned r /\ raise_for_status r = Ok tt /\ content r = Json v.

(** What one request-and-decode block
    ([requests.get/post; raise_for_status(); return response.json()] under
    [except RequestException as e: raise Exception(prefix + str(e))])
    makes of the outcome of its HTTP call. *)
Definition fetch_outcome (prefix : string) (o : http_outcome) : result pyval :=
  match o with
  | Raised e =>
      if is_request_exception e then Raise (PyException (prefix ++ exn_str e)) else Raise e
  | Returned r =>
      match raise_for_status r with
      | Raise e => Raise (PyException (prefix ++ exn_str e))
      | Ok _ =>
          match content r with
          | InvalidJson m => Raise (PyException (prefix ++ m))
          | Json v => Ok v
          end
      end
  end.

Definition json_headers : list (string * string) :=
  [("Content-Type", "application/json"); ("Accept", "application/json")].

Section Callers.

Variable str_other : pyval -> string.

(** [str(e)] of an exception raised by the interpreter itself (TypeError,
    AttributeError, KeyError, ...) is left abstract; an exception built
    from a message prints as that message. *)
Variable str_builtin : exn -> string.

Definition str_exception (e : exn) : string :=
  match e with
  | RequestException m => m
  | PyException m => m
  | _ => str_builtin e
  end.

(** *** [auth_service.py], continued *)

Definition get_user_info (token : pyval) : M pyval :=
  a <- get_self ;;
  let target := split_head "/api" (api_url a) ++ "/api/v2/users/current" in
  let headers := [("Content-Type", "application/json"); ("Accept", "application/json")] in
  headers <-
    (if truthy token then
       ret (headers ++ [("Authorization", ("Bearer " ++ py_str str_other token)%string)])%list
     else
       service_token <- get_access_token ;;
       ret (headers ++ [("Authorization",
                         ("Bearer " ++ py_str str_other service_token)%string)])%list) ;;
  try_except
    (response <- requests_get target [] headers ;;
     lift (raise_for_status response) ;;;
     lift (response_json response))
    is_request_exception
    (fun e => raise (PyException ("Failed to get user information: " ++ exn_str e))).

Definition authenticate_user (username password : pyval) : M pyval :=
  a <- get_self ;;
  let target := split_head "/api" (api_url a) ++ "/oauth/token" in
  let payload := [("grant_type", PStr "password");
                  ("username", username);
                  ("password", password);
                  ("client_id", opt_str (client_id a));
                  ("client_secret", opt_str (client_secret a))] in
  try_except
    (response <- requests_post target payload ;;
     lift (raise_for_status response) ;;;
     data <- lift (response_json response) ;;
     token <- lift (py_get data "access_token" PNone) ;;
     user_info <- get_user_info token ;;
     access <- lift (py_get data "access_token" PNone) ;;
     refresh <- lift (py_get data "refresh_token" PNone) ;;
     expires_in <- lift (py_get data "expires_in" PNone) ;;
     ret (PDict [("access_token", access); ("refresh_token", refresh);
                 ("expires_in", expires_in); ("user", user_info)]))
    is_request_exception
    (fun e => raise (PyException ("Authentication failed: " ++ exn_str e))).

(** *** [lineage_service.py], continued *)

Definition get_impact_analysis (guid depth : pyval) : M pyval :=
  a <- get_self ;;
  let target := api_url a ++ "/lineage/impact" in
  let params := [("guid", guid); ("depth", depth)] in
  try_except
    (headers <- get_headers str_other ;;
     response <- requests_get target params headers ;;
     lift (raise_for_status response) ;;;
     lift (response_json response))
    is_request_exception
    (fun e => raise (PyException ("Failed to get impact analysis: " ++ exn_str e))).

Definition get_process_details (process_guid : pyval) : M pyval :=
  a <- get_self ;;
  let target := api_url a ++ "/assets/" ++ py_str str_other process_guid in
  try_except
    (headers <- get_headers str_other ;;
     response <- requests_get target [] headers ;;
     lift (raise_for_status response) ;;;
     lift (response_json response))
    is_request_exception
    (fun e => raise (PyException ("Failed to get process details: " ++ exn_str e))).

(** The payload [create_lineage] builds before it posts it (from
    [if process_guid:] to the last [else]). *)
Definition create_lineage_payload
    (from_guid to_guid process_guid process_name process_type : pyval) : pyval :=
  if truthy process_guid then
    PDict [("fromEntityGuid", from_guid);
           ("toEntityGuid", to_guid);
           ("processGuid", process_guid)]
  else if truthy process_name && truthy process_type then
    PDict [("fromEntityGuid", from_guid);
           ("toEntityGuid", to_guid);
           ("process",
            PDict [("typeName", process_type);
                   ("attributes",
                    PDict [("name", process_name);
                           ("qualifiedName",
                            PStr (py_str str_other process_name ++ "_" ++
                                  py_str str_other from_guid ++ "_" ++
                                  py_str str_other to_guid))])])]
  else
    PDict [("fromEntityGuid", from_guid);
           ("toEntityGuid", to_guid)].

End Callers.

(** *** [auth.py]: the views and their decorator

    A view takes what Flask hands it: the value of the Authorization
    header when there is one, and the outcome of [request.get_json()]. *)
Module api_auth.

Section Views.

Variable str_other : pyval -> string.
Variable str_builtin : exn -> string.

(** [token_required(f)]; [f] reads the user the decorator stored in
    [g.user]. *)
Definition token_required (f : pyval -> M flask_response) (authorization : option string)
    : M flask_response :=
  token <-
    (match authorization with
     | Some auth_header =>
         if String.prefix "Bearer " auth_header then
           match split_char " " auth_header with
           | _ :: item :: _ => ret (PStr item)
           | _ => raise (PyException "list index out of range")
           end
         else ret PNone
     | None => ret PNone
     end) ;;
  if negb (truthy token) then
    ret (error_body "UNAUTHORIZED" "Token is missing" "Authentication token is required", 401)
  else
    try_except
      (valid <- validate_token str_other token ;;
       (if negb valid then raise (PyException "Invalid token") else ret tt) ;;;
       user_info <- get_user_info str_other token ;;
       f user_info)
      (fun _ => true)
      (fun e => ret (error_body "UNAUTHORIZED" "Invalid token"
                                (str_exception str_builtin e), 401)).

(** [not data or k1 not in data or k2 not in data ...], left to right. *)
Fixpoint missing_keys (data : pyval) (keys : list string) : result bool :=
  match keys with
  | [] => Ok false
  | k :: rest =>
      rbind (py_contains k data) (fun present =>
      if negb present then Ok true else missing_keys data rest)
  end.

Definition login (get_json : result pyval) : M flask_response :=
  try_except
    (data <- lift get_json ;;
     missing <- lift (if negb (truthy data) then Ok true
                      else missing_keys data ["username"; "password"]) ;;
     if missing then
       ret (error_body "BAD_REQUEST" "Missing credentials"
                       "Username and password are required", 400)
     else
       username <- lift (py_getitem data "username") ;;
       password <- lift (py_getitem data "password") ;;
       result <- authenticate_user str_other username password ;;
       ret (result, 200))
    (fun _ => true)
    (fun e => ret (error_body "AUTHENTICATION_FAILED" "Authentication failed"
                              (str_exception str_builtin e), 401)).

(** [AuthService] defines no [refresh_token] method: the attribute lookup
    of [auth_service.refresh_token] raises AttributeError. *)
Definition refresh_token (get_json : result pyval) : M flask_response :=
  try_except
    (data <- lift get_json ;;
     missing <- lift (if negb (truthy data) then Ok true
                      else missing_keys data ["refresh_token"]) ;;
     if missing then
       ret (error_body "BAD_REQUEST" "Missing refresh token"
                       "Refresh token is required", 400)
     else
       token <- lift (py_getitem data "refresh_token") ;;
       raise AttributeError)
    (fun _ => true)
    (fun e => ret (error_body "REFRESH_FAILED" "Token refresh failed"
                              (str_exception str_builtin e), 401)).

Definition get_user_info (authorization : option string) : M flask_response :=
  token_required
    (fun user =>
       try_except
         (ret (user, 200))
         (fun _ => true)
         (fun e => ret (error_body "INTERNAL_SERVER_ERROR" "Failed to get user info"
                                   (str_exception str_builtin e), 500)))
    authorization.

Definition validate_token (get_json : result pyval) : M flask_response :=
  try_except
    (data <- lift get_json ;;
     missing <- lift (if negb (truthy data) then Ok true
                      else missing_keys data ["token"]) ;;
     if missing then
       ret (error_body "BAD_REQUEST" "Missing token" "Token is required", 400)
     else
       token <- lift (py_getitem data "token") ;;
       is_valid <- validate_token str_other token ;;
       ret (PDict [("valid", PBool is_valid)], 200))
    (fun _ => true)
    (fun e => ret (error_body "VALIDATION_FAILED" "Token validation failed"
                              (str_exception str_builtin e), 500)).

Definition logout (authorization : option string) : M flask_response :=
  token_required (fun _ => ret (PDict [("message", PStr "Logout successful")], 200))
                 authorization.

End Views.

End api_auth.

(** The requests of the functions above. *)
Definition users_target (a : AuthService) : string :=
  split_head "/api" (api_url a) ++ "/api/v2/users/current".

Definition bearer_headers (token : string) : list (string * string) :=
  [("Content-Type", "application/json"); ("Accept", "application/json");
   ("Authorization", "Bearer " ++ token)].

Definition api_key_headers (key : string) : list (string * string) :=
  [("Content-Type", "application/json"); ("Accept", "application/json");
   ("X-Atlan-API-Key", key)].

Definition password_request (a : AuthService) (username password : pyval) : event :=
  POST (oauth_target a)
       [("grant_type", PStr "password");
        ("username", username);
        ("password", password);
        ("client_id", opt_str (client_id a));
        ("client_secret", opt_str (client_secret a))].

Definition user_info_request (a : AuthService) (token : string) : event :=
  GET (users_target a) [] (bearer_headers token).

Definition validate_request (a : AuthService) (token : string) : event :=
  GET (users_target a) [] [("Authorization", "Bearer " ++ token)].

(** The dict [authenticate_user] returns. *)
Definition login_result (d : list (string * pyval)) (user_info : pyval) : pyval :=
  PDict [("access_token", dict_get d "access_token" PNone);
         ("refresh_token", dict_get d "refresh_token" PNone);
         ("expires_in", dict_get d "expires_in" PNone);
         ("user", user_info)].

(** The part of the service object that comes from the configuration. *)
Definition configuration (a : AuthService)
    : string * option string * option string * option string :=
  (api_url a, api_key a, client_id a, client_secret a).

(** The token [token_required] takes from the Authorization header: item 1
    of the header split at spaces, when the header starts with "Bearer ";
    empty when it takes none. *)
Definition bearer_token (authorization : option string) : string :=
  match authorization with
  | Some auth_header =>
      if String.prefix "Bearer " auth_header
      then nth 1 (split_char " " auth_header) EmptyString
      else EmptyString
  | None => EmptyString
  end.

Definition missing_token_response : flask_response :=
  (error_body "UNAUTHORIZED" "Token is missing" "Authentication token is required", 401).

Definition invalid_token_response (details : string) : flask_response :=
  (error_body "UNAUTHORIZED" "Invalid token" details, 401).

(** Further vendors for concrete runs: one whose token response has a
    lifetime that is no number, one whose token response has no
    access_token, and one that refuses every request. *)
Definition malformed_env : environment :=
  {| env_now := fun k => 1000000 * Z.of_nat k;
     env_http := fun _ =>
       Returned {| status_code := 200; reason := "OK";
                   url := "https://tenant.atlan.com/oauth/token";
                   content := Json (PDict [("access_token", PStr "T2");
                                           ("refresh_token", PStr "R2");
                                           ("expires_in", PStr "3600")]) |} |}.

Definition tokenless_env : environment :=
  {| env_now := fun k => 1000000 * Z.of_nat k;
     env_http := fun _ =>
       Returned {| status_code := 200; reason := "OK";
                   url := "https://tenant.atlan.com/oauth/token";
                   content := Json (PDict [("token_type", PStr "bearer")]) |} |}.

Definition refusing_env : environment :=
  {| env_now := fun k => 1000000 * Z.of_nat k; env_http := fun _ => unauthorized |}.

(** The logout view's body, and a view that raises. *)
Definition logout_body : pyval := PDict [("message", PStr "Logout successful")].

Definition raising_view (user_info : pyval) : M flask_response := raise TypeError.

(** A vendor that delivers the example payload of the specification. *)
Definition lineage_env : environment :=
  {| env_now := fun k => 1000000 * Z.of_nat k;
     env_http := fun _ =>
       Returned {| status_code := 200; reason := "OK";
                   url := "https://tenant.atlan.com/api/meta/lineage";
                   content := Json example_payload |} |}.

(** The state [n] consecutive calls of [get_access_token] leave, whether
    they return or raise. *)
Fixpoint state_after_calls (n : nat) (env : environment) (st : state) : state :=
  match n with
  | O => st
  | S k => state_after_calls k env (snd (get_access_token env st))
  end.

(** A vendor none of whose delivered token responses carries a usable
    access_token. *)
Definition delivers_no_token (env : environment) : Prop :=
  forall k d, delivered (env_http env k) d -> truthy (dict_get d "access_token" PNone) = false.

(** ** Proof tools *)

Arguments raise_for_status : simpl never.
Arguments timedelta_seconds : simpl never.
Arguments datetime_add : simpl never.
Arguments split_head : simpl never.

Ltac run :=
  unfold token_grant, token_is_valid, try_except, bind, lift, ret, raise, get_self,
    set_access_token, set_refresh_token, set_token_expiry, set_self,
    datetime_now, requests_post, requests_get, http; simpl.

(** ** The lineage-graph projection *)

Section Lineage.

Variable str_other : pyval -> string.

Lemma rbind_Ok {A B} (r : result A) (k : A -> result B) (b : B) :
  rbind r k = Ok b -> exists a, r = Ok a /\ k a = Ok b.
Proof.
  destruct r as [a|e]; simpl; intros H; [exists a; auto | discriminate].
Qed.

Lemma append_each_Forall2 {A} (make : pyval -> result A) (R : pyval -> A -> Prop) :
  (forall x y, make x = Ok y -> R x y) ->
  forall items acc out,
    append_each make acc items = Ok out ->
    exists fresh, out = (acc ++ fresh)%list /\ Forall2 R items fresh.
Proof.
  intros HR items; induction items as [|item rest IH]; simpl; intros acc out H.
  - exists []. injection H as <-. split; [now rewrite app_nil_r | constructor].
  - apply rbind_Ok in H. destruct H as (x & Hx & Hrest).
    destruct (IH _ _ Hrest) as (fresh & -> & HF).
    exists (x :: fresh). split.
    + now rewrite <- app_assoc.
    + constructor; auto.
Qed.

Lemma append_each_total {A} (make : pyval -> result A) (items : list pyval) :
  Forall (fun x => exists y, make x = Ok y) items ->
  forall acc, exists out, append_each make acc items = Ok out.
Proof.
  induction 1 as [|item rest (y & Hy) _ IH]; intros acc; simpl.
  - now exists acc.
  - rewrite Hy; simpl. apply IH.
Qed.

Lemma make_node_of (entity : pyval) (n : node) :
  make_node entity = Ok n -> node_of entity n.
Proof.
  unfold make_node; intros H.
  apply rbind_Ok in H; destruct H as (id & Hid & H).
  apply rbind_Ok in H; destruct H as (attributes & Hattr & H).
  apply rbind_Ok in H; destruct H as (label & Hlabel & H).
  apply rbind_Ok in H; destruct H as (ty & Hty & H).
  injection H as <-. unfold node_of; simpl.
  destruct attributes; try discriminate.
  injection Hlabel as <-.
  repeat split; auto. exists d; auto.
Qed.

Lemma make_edge_of (relation : pyval) (e : edge) :
  make_edge str_other relation = Ok e -> edge_of str_other relation e.
Proof.
  unfold make_edge; intros H.
  destruct relation; try discriminate. simpl in H.
  destruct (dict_lookup "fromEntityGuid" d) as [from_guid|] eqn:Hfrom; try discriminate.
  destruct (dict_lookup "toEntityGuid" d) as [to_guid|] eqn:Hto; try discriminate.
  simpl in H. injection H as <-.
  exists d, from_guid, to_guid; simpl. repeat split; auto.
Qed.

(** One pass of the projection ([if key in lineage_data: for ... append])
    yields one output per item of the payload sequence, in order. *)
Lemma walk_Forall2 {A B} (key : string) (payload : pyval) (make : pyval -> result A)
    (R : pyval -> A -> Prop) (k : list A -> result B) (b : B) :
  (forall x y, make x = Ok y -> R x y) ->
  rbind (py_contains key payload) (fun present =>
  rbind (if present then
           rbind (py_getitem payload key) (fun v =>
           rbind (py_iter v) (fun items => append_each make [] items))
         else Ok []) k) = Ok b ->
  exists out, Forall2 R (payload_sequence key payload) out /\ k out = Ok b.
Proof.
  intros HR H.
  apply rbind_Ok in H; destruct H as (present & Hin & H).
  apply rbind_Ok in H; destruct H as (out & Hout & Hk).
  exists out; split; auto.
  destruct present.
  - apply rbind_Ok in Hout; destruct Hout as (v & Hv & Hout).
    apply rbind_Ok in Hout; destruct Hout as (items & Hitems & Hout).
    destruct payload; try discriminate. simpl in *.
    destruct (dict_lookup key d); try discriminate.
    injection Hv as ->. rewrite Hitems.
    destruct (append_each_Forall2 make R HR _ _ _ Hout) as (fresh & -> & HF). exact HF.
  - injection Hout as <-.
    destruct payload; simpl in *; try constructor.
    destruct (dict_lookup key d); try discriminate. constructor.
Qed.

(** The graph returned is the image of the payload, item by item. *)
Lemma lineage_graph_correspondence (payload : pyval) (g : graph) :
  lineage_graph str_other payload = Ok g ->
  Forall2 node_of (payload_sequence "entities" payload) (nodes g) /\
  Forall2 (edge_of str_other) (payload_sequence "relations" payload) (edges g).
Proof.
  unfold lineage_graph; intros H.
  apply (walk_Forall2 _ _ _ node_of) in H; [|exact make_node_of].
  destruct H as (ns & Hns & H).
  apply (walk_Forall2 _ _ _ (edge_of str_other)) in H; [|exact make_edge_of].
  destruct H as (es & Hes & H).
  injection H as <-; simpl. auto.
Qed.

Lemma make_node_total (entity : pyval) :
  complete_entity entity = true -> exists n, make_node entity = Ok n.
Proof.
  destruct entity as [| | | | |d]; simpl; try discriminate.
  unfold has_key, make_node; simpl.
  destruct (dict_lookup "guid" d); simpl; try discriminate.
  destruct (dict_lookup "typeName" d); simpl; try discriminate.
  destruct (dict_lookup "attributes" d) as [[| | | | |a]|]; simpl; try discriminate.
  intros _. eexists; reflexivity.
Qed.

Lemma make_edge_total (relation : pyval) :
  complete_relation relation = true -> exists e, make_edge str_other relation = Ok e.
Proof.
  destruct relation as [| | | | |d]; simpl; try discriminate.
  unfold has_key, make_edge; simpl.
  destruct (dict_lookup "fromEntityGuid" d); simpl; try discriminate.
  destruct (dict_lookup "toEntityGuid" d); simpl; try discriminate.
  intros _. eexists; reflexivity.
Qed.

Lemma forallb_total {A} (ok : pyval -> bool) (make : pyval -> result A) (l : list pyval) :
  (forall x, ok x = true -> exists y, make x = Ok y) ->
  forallb ok l = true -> Forall (fun x => exists y, make x = Ok y) l.
Proof.
  intros Hok H. apply Forall_forall. intros x Hx.
  apply Hok. rewrite forallb_forall in H. now apply H.
Qed.

(** On a payload that carries the subscripted fields the projection returns. *)
Lemma lineage_graph_complete (payload : pyval) :
  complete_payload payload = true ->
  exists g, lineage_graph str_other payload = Ok g.
Proof.
  destruct payload as [| | | | |d]; simpl; try discriminate.
  intros H. apply andb_prop in H. destruct H as [He Hr].
  unfold lineage_graph; simpl.
  assert (Hnodes : exists ns,
    (if match dict_lookup "entities" d with Some _ => true | None => false end
     then rbind (match dict_lookup "entities" d with
                 | Some x => Ok x | None => Raise (KeyError "entities") end)
            (fun v => rbind (py_iter v) (fun items => append_each make_node [] items))
     else Ok []) = Ok ns).
  { destruct (dict_lookup "entities" d) as [[| | | |l|]|]; try discriminate.
    - simpl. apply append_each_total.
      eapply forallb_total; [apply make_node_total | exact He].
    - now exists []. }
  assert (Hedges : exists es,
    (if match dict_lookup "relations" d with Some _ => true | None => false end
     then rbind (match dict_lookup "relations" d with
                 | Some x => Ok x | None => Raise (KeyError "relations") end)
            (fun v => rbind (py_iter v) (fun items => append_each (make_edge str_other) [] items))
     else Ok []) = Ok es).
  { destruct (dict_lookup "relations" d) as [[| | | |l|]|]; try discriminate.
    - simpl. apply append_each_total.
      eapply forallb_total; [apply make_edge_total | exact Hr].
    - now exists []. }
  destruct Hnodes as (ns & ->). simpl.
  destruct Hedges as (es & ->). simpl.
  eexists; reflexivity.
Qed.

Lemma node_of_complete (entity : pyval) (n : node) :
  node_of entity n -> complete_entity entity = true.
Proof.
  intros (Hid & Hty & (attributes & Hattr & _) & _).
  destruct entity as [| | | | |d]; try discriminate. simpl in *.
  unfold has_key.
  destruct (dict_lookup "guid" d); try discriminate.
  destruct (dict_lookup "typeName" d); try discriminate.
  destruct (dict_lookup "attributes" d); try discriminate.
  now injection Hattr as ->.
Qed.

Lemma edge_of_complete (relation : pyval) (e : edge) :
  edge_of str_other relation e -> complete_relation relation = true.
Proof.
  intros (fields & from_guid & to_guid & -> & Hfrom & Hto & _).
  simpl. unfold has_key. now rewrite Hfrom, Hto.
Qed.

Lemma Forall2_forallb {A} (R : pyval -> A -> Prop) (ok : pyval -> bool)
    (l : list pyval) (out : list A) :
  (forall x y, R x y -> ok x = true) -> Forall2 R l out -> forallb ok l = true.
Proof.
  intros HR; induction 1 as [|x y l out Hxy _ IH]; simpl; auto.
  now rewrite (HR _ _ Hxy), IH.
Qed.

(** C4. On every payload that carries the fields named here the
    projection returns a graph, and whenever it returns a graph, its nodes
    are the projections of the payload's entities, one node per entity and
    in payload order, with id the entity's guid, type its typeName and
    label attributes.name or "Unknown" when name is absent; its edges are
    the projections of the payload's relations, one edge per relation and
    in payload order, with id fromEntityGuid, "_" and toEntityGuid
    concatenated, source and target the endpoint guids and label
    relationshipType or "Unknown" when absent.  Nothing is dropped,
    merged or re-ordered. *)
Theorem lineage_graph_one_to_one (payload : pyval) :
  (complete_payload payload = true ->
   exists g, lineage_graph str_other payload = Ok g) /\
  (forall g,
     lineage_graph str_other payload = Ok g ->
     Forall2 node_of (payload_sequence "entities" payload) (nodes g) /\
     Forall2 (edge_of str_other) (payload_sequence "relations" payload) (edges g) /\
     List.length (nodes g) = List.length (payload_sequence "entities" payload) /\
     List.length (edges g) = List.length (payload_sequence "relations" payload)).
Proof.
  split; [apply lineage_graph_complete|].
  intros g H. destruct (lineage_graph_correspondence _ _ H) as (Hns & Hes).
  repeat split; auto; symmetry; eapply Forall2_length; eauto.
Qed.

(** C5, amended. The projection is total on the payloads that carry the
    fields it subscripts: a mapping whose entities, when present, are a
    list of mappings each with guid, typeName and attributes (a mapping),
    and whose relations, when present, are a list of mappings each with
    fromEntityGuid and toEntityGuid.  Only attributes.name and
    relationshipType are optional: among the payloads in which every
    field is optional, the projection returns a graph on no other. *)
Theorem lineage_graph_total_on_complete (payload : pyval) :
  (complete_payload payload = true ->
   exists g, lineage_graph str_other payload = Ok g) /\
  (loose_payload payload = true ->
   (exists g, lineage_graph str_other payload = Ok g) ->
   complete_payload payload = true).
Proof.
  split; [apply lineage_graph_complete|].
  intros Hloose (g & H).
  destruct (lineage_graph_correspondence _ _ H) as (Hns & Hes).
  destruct payload as [| | | | |d]; try discriminate. simpl in *.
  apply andb_prop in Hloose. destruct Hloose as [He Hr].
  apply andb_true_intro; split.
  - destruct (dict_lookup "entities" d) as [[| | | |l|]|]; try discriminate; auto.
    simpl in Hns. eapply Forall2_forallb; [apply node_of_complete | exact Hns].
  - destruct (dict_lookup "relations" d) as [[| | | |l|]|]; try discriminate; auto.
    simpl in Hes. eapply Forall2_forallb; [apply edge_of_complete | exact Hes].
Qed.

(** C8. The empty payload projects to the empty graph; a payload without
    the entities key yields no node and one without the relations key no
    edge, and the missing key is not an error: the result is what the
    other pass alone produces. *)
Theorem lineage_graph_missing_keys :
  lineage_graph str_other (PDict []) = Ok {| nodes := []; edges := [] |} /\
  (forall d,
      dict_lookup "entities" d = None -> dict_lookup "relations" d = None ->
      lineage_graph str_other (PDict d) = Ok {| nodes := []; edges := [] |}) /\
  (forall d v,
      dict_lookup "entities" d = None -> dict_lookup "relations" d = Some v ->
      lineage_graph str_other (PDict d) =
      rbind (rbind (py_iter v) (fun items => append_each (make_edge str_other) [] items))
            (fun es => Ok {| nodes := []; edges := es |})) /\
  (forall d v,
      dict_lookup "entities" d = Some v -> dict_lookup "relations" d = None ->
      lineage_graph str_other (PDict d) =
      rbind (rbind (py_iter v) (fun items => append_each make_node [] items))
            (fun ns => Ok {| nodes := ns; edges := [] |})).
Proof.
  split; [reflexivity|].
  split; [|split].
  - intros d He Hr. unfold lineage_graph; simpl. now rewrite He, Hr.
  - intros d v He Hr. unfold lineage_graph; simpl. now rewrite He, Hr.
  - intros d v He Hr. unfold lineage_graph; simpl. rewrite He, Hr; simpl.
    destruct (rbind (py_iter v) _); reflexivity.
Qed.

(** [get_lineage_graph] is [get_lineage] followed by the projection: it
    adds no HTTP call and no state change of its own. *)
Lemma get_lineage_graph_projects (guid direction depth include_process : pyval)
    (env : environment) (st st' : state) (lineage_data : pyval) :
  get_lineage str_other guid direction depth include_process env st = (Ok lineage_data, st') ->
  get_lineage_graph str_other guid direction depth include_process env st =
  (lineage_graph str_other lineage_data, st').
Proof.
  intros H. unfold get_lineage_graph, bind. now rewrite H.
Qed.

End Lineage.

Lemma lineage_graph_one_to_one_example :
  lineage_graph str_scalar example_payload = Ok example_graph /\
  Forall2 node_of (payload_sequence "entities" example_payload) (nodes example_graph) /\
  Forall2 (edge_of str_scalar) (payload_sequence "relations" example_payload)
          (edges example_graph) /\
  List.length (nodes example_graph) = List.length (payload_sequence "entities" example_payload) /\
  List.length (edges example_graph) = List.length (payload_sequence "relations" example_payload).
Proof.
  split; [reflexivity|].
  apply (proj2 (lineage_graph_one_to_one str_scalar example_payload) example_graph).
  reflexivity.
Defined.

(** C5 as stated fails: on a payload whose only entity lacks the guid
    field the projection raises KeyError instead of producing a graph. *)
Lemma lineage_graph_raises_without_guid :
  loose_payload payload_without_guid = true /\
  lineage_graph str_scalar payload_without_guid = Raise (KeyError "guid").
Proof.
  split; reflexivity.
Qed.

Lemma lineage_graph_total_on_complete_example :
  complete_payload example_payload = true /\
  exists g, lineage_graph str_scalar example_payload = Ok g.
Proof.
  split; [reflexivity|].
  apply (proj1 (lineage_graph_total_on_complete str_scalar example_payload)).
  reflexivity.
Defined.

Lemma lineage_graph_missing_keys_example :
  lineage_graph str_scalar (PDict [("guid", PStr "a1")]) = Ok {| nodes := []; edges := [] |}.
Proof.
  apply (proj1 (proj2 (lineage_graph_missing_keys str_scalar))); reflexivity.
Defined.

(** ** The token endpoints *)

Lemma _get_new_access_token_grant (env : environment) (st : state) :
  _get_new_access_token env st =
  token_grant (mint_request (self st)) "Authentication failed: " env st.
Proof. reflexivity. Qed.

Lemma _refresh_access_token_grant (env : environment) (st : state) :
  _refresh_access_token env st =
  token_grant (refresh_request (self st)) "Token refresh failed: " env st.
Proof. reflexivity. Qed.

Lemma raise_for_status_request_exception (r : response) (e : exn) :
  raise_for_status r = Raise e -> exists m, e = RequestException m.
Proof.
  unfold raise_for_status.
  destruct (_ && _); [intros [= <-]; eauto|].
  destruct (_ && _); [intros [= <-]; eauto | discriminate].
Qed.

Lemma timedelta_seconds_exception (v : pyval) (e : exn) :
  timedelta_seconds v = Raise e -> is_request_exception e = false.
Proof.
  unfold timedelta_seconds.
  destruct v; try (intros [= <-]; reflexivity);
    destruct (_ && _); try discriminate; intros [= <-]; reflexivity.
Qed.

Lemma datetime_add_exception (t : datetime) (d : timedelta) (e : exn) :
  datetime_add t d = Raise e -> is_request_exception e = false.
Proof.
  unfold datetime_add. destruct (_ && _); try discriminate.
  intros [= <-]; reflexivity.
Qed.

Section Grant.

Variables (ev : event) (prefix : string) (env : environment) (st : state).

(** The request is sent once, whatever follows, and the configuration is
    never touched. *)
Lemma token_grant_frame :
  let st' := snd (token_grant ev prefix env st) in
  http_calls st' = S (http_calls st) /\
  trace st' = (trace st ++ [ev])%list /\
  api_url (self st') = api_url (self st) /\
  api_key (self st') = api_key (self st) /\
  client_id (self st') = client_id (self st) /\
  client_secret (self st') = client_secret (self st).
Proof.
  run.
  destruct (env_http env (http_calls st)) as [e|r]; simpl.
  - destruct (is_request_exception e); simpl; auto 10.
  - destruct (raise_for_status r) as [[]|e] eqn:Hs; simpl.
    + unfold response_json.
      destruct (content r) as [m|v]; simpl; auto 10.
      destruct v; simpl; auto 10.
      destruct (timedelta_seconds _) as [delta|e]; simpl.
      * destruct (datetime_add _ _) as [t|e]; simpl; auto 10.
        destruct (is_request_exception e); simpl; auto 10.
      * destruct (is_request_exception e); simpl; auto 10.
    + destruct (is_request_exception e); simpl; auto 10.
Qed.

(** A request error ends the call with the generic exception, the service
    object untouched. *)
Lemma token_grant_request_error (m : string) :
  request_error (env_http env (http_calls st)) = Some m ->
  token_grant ev prefix env st = (Raise (PyException (prefix ++ m)), after_call st ev).
Proof.
  unfold request_error. run.
  destruct (env_http env (http_calls st)) as [e|r]; simpl.
  - destruct e; try discriminate. now intros [= <-].
  - destruct (raise_for_status r) as [[]|e] eqn:Hs; simpl.
    + unfold response_json.
      destruct (content r) as [m'|v]; simpl; [|discriminate].
      now intros [= <-].
    + destruct (raise_for_status_request_exception _ _ Hs) as (m' & ->).
      now intros [= <-].
Qed.

(** A delivered JSON object is stored: both tokens first, then the expiry,
    unless the lifetime cannot be turned into a date. *)
Lemma token_grant_delivered (d : list (string * pyval)) :
  delivered (env_http env (http_calls st)) d ->
  let stored := with_tokens (self st) (dict_get d "access_token" PNone)
                            (dict_get d "refresh_token" PNone) in
  let st1 := after_reads (with_self (after_call st ev) stored) 1 in
  token_grant ev prefix env st =
  match rbind (timedelta_seconds (dict_get d "expires_in" (PInt 3600)))
              (datetime_add (env_now env (clock_reads st))) with
  | Ok expiry => (Ok tt, with_self st1 (with_expiry stored expiry))
  | Raise e => (Raise e, st1)
  end.
Proof.
  intros (r & Hr & Hs & Hc). run. rewrite Hr, Hs; simpl.
  unfold response_json; rewrite Hc; simpl.
  unfold dict_get, after_reads, with_self, after_call, with_tokens, with_expiry; simpl.
  rewrite Nat.add_1_r.
  destruct (timedelta_seconds _) as [delta|e] eqn:Hd; simpl.
  - destruct (datetime_add _ _) as [t|e] eqn:Ht; simpl; auto.
    now rewrite (datetime_add_exception _ _ _ Ht).
  - now rewrite (timedelta_seconds_exception _ _ Hd).
Qed.

(** A JSON body that is not an object stops the call at [data.get]. *)
Lemma token_grant_not_object (r : response) (v : pyval) :
  env_http env (http_calls st) = Returned r ->
  raise_for_status r = Ok tt ->
  content r = Json v ->
  is_dict v = false ->
  token_grant ev prefix env st = (Raise AttributeError, after_call st ev).
Proof.
  intros Hr Hs Hc Hv. run. rewrite Hr, Hs; simpl.
  unfold response_json; rewrite Hc; simpl.
  destruct v; try discriminate; reflexivity.
Qed.

(** An exception of the HTTP call that is not a request error passes
    through. *)
Lemma token_grant_raised (e : exn) :
  env_http env (http_calls st) = Raised e ->
  is_request_exception e = false ->
  token_grant ev prefix env st = (Raise e, after_call st ev).
Proof.
  intros Hr He. run. now rewrite Hr, He.
Qed.

(** The outcomes of the HTTP call, sorted. *)
Lemma http_outcome_cases (o : http_outcome) :
  (exists m, request_error o = Some m) \/
  (exists d, delivered o d) \/
  (exists r v, o = Returned r /\ raise_for_status r = Ok tt /\
               content r = Json v /\ is_dict v = false) \/
  (exists e, o = Raised e /\ is_request_exception e = false).
Proof.
  destruct o as [e|r].
  - destruct e; simpl; eauto 10.
  - unfold request_error, delivered.
    destruct (raise_for_status r) as [[]|e] eqn:Hs; eauto 10.
    destruct (content r) as [m|v] eqn:Hc; eauto 10.
    destruct v; eauto 12.
Qed.

End Grant.

Lemma timedelta_expires_in (d : list (string * pyval)) (delta : timedelta) :
  timedelta_seconds (dict_get d "expires_in" (PInt 3600)) = Ok delta ->
  exists secs, expires_in_seconds d = Some secs /\ delta = secs * 1000000 /\
               (dict_lookup "expires_in" d = None -> secs = 3600).
Proof.
  unfold dict_get, expires_in_seconds, timedelta_seconds.
  destruct (dict_lookup "expires_in" d) as [[| b | n | | |]|]; try discriminate;
    destruct (_ && _); try discriminate; intros [= <-];
    eexists; repeat split; try reflexivity; discriminate.
Qed.

Lemma token_grant_ok (ev : event) (prefix : string) (env : environment) (st st' : state) :
  token_grant ev prefix env st = (Ok tt, st') ->
  exists d secs,
    delivered (env_http env (http_calls st)) d /\
    expires_in_seconds d = Some secs /\
    (dict_lookup "expires_in" d = None -> secs = 3600) /\
    self st' = with_expiry (with_tokens (self st) (dict_get d "access_token" PNone)
                                        (dict_get d "refresh_token" PNone))
                           (env_now env (clock_reads st) + secs * 1000000) /\
    clock_reads st' = S (clock_reads st).
Proof.
  intros H.
  destruct (http_outcome_cases (env_http env (http_calls st)))
    as [(m & Hm) | [(d & Hd) | [(r & v & Hr & Hs & Hc & Hv) | (e & Hr & He)]]].
  - rewrite (token_grant_request_error _ _ _ _ _ Hm) in H. discriminate.
  - rewrite (token_grant_delivered _ _ _ _ _ Hd) in H.
    destruct (timedelta_seconds _) as [delta|e] eqn:Hdelta; simpl in H; try discriminate.
    destruct (datetime_add _ _) as [t|e] eqn:Ht; try discriminate.
    destruct (timedelta_expires_in _ _ Hdelta) as (secs & Hsecs & -> & Hdefault).
    unfold datetime_add in Ht. destruct (_ && _); try discriminate.
    injection Ht as <-. injection H as <-.
    exists d, secs. simpl. rewrite Nat.add_1_r. auto 10.
  - rewrite (token_grant_not_object _ _ _ _ _ _ Hr Hs Hc Hv) in H. discriminate.
  - rewrite (token_grant_raised _ _ _ _ _ Hr He) in H. discriminate.
Qed.

Lemma expires_in_timedelta (d : list (string * pyval)) (secs : Z) :
  expires_in_seconds d = Some secs ->
  -999999999 <= secs / 86400 <= 999999999 ->
  timedelta_seconds (dict_get d "expires_in" (PInt 3600)) = Ok (secs * 1000000).
Proof.
  intros Hsecs [Hlow Hhigh].
  apply Z.leb_le in Hlow. apply Z.leb_le in Hhigh.
  unfold dict_get, expires_in_seconds in *. unfold timedelta_seconds.
  destruct (dict_lookup "expires_in" d) as [[| b | n | | |]|]; try discriminate;
    injection Hsecs as <-; now rewrite Hlow, Hhigh.
Qed.

(** A delivered JSON object with a usable lifetime makes the token request
    return, with the expiry stored. *)
Lemma token_grant_succeeds (ev : event) (prefix : string) (env : environment) (st : state)
    (d : list (string * pyval)) (secs : Z) :
  delivered (env_http env (http_calls st)) d ->
  expires_in_seconds d = Some secs ->
  -999999999 <= secs / 86400 <= 999999999 ->
  0 <= env_now env (clock_reads st) + secs * 1000000 <= datetime_max ->
  token_grant ev prefix env st =
  (Ok tt,
   with_self (after_reads (with_self (after_call st ev)
                             (with_tokens (self st) (dict_get d "access_token" PNone)
                                          (dict_get d "refresh_token" PNone))) 1)
     (with_expiry (with_tokens (self st) (dict_get d "access_token" PNone)
                               (dict_get d "refresh_token" PNone))
                  (env_now env (clock_reads st) + secs * 1000000))).
Proof.
  intros Hd Hsecs Hrange [Hlow Hhigh].
  rewrite (token_grant_delivered _ _ _ _ _ Hd).
  rewrite (expires_in_timedelta _ _ Hsecs Hrange). simpl rbind.
  unfold datetime_add.
  apply Z.leb_le in Hlow. apply Z.leb_le in Hhigh. now rewrite Hlow, Hhigh.
Qed.

(** C9. Every successful mint and every successful refresh stores as
    expiry the clock reading taken in that call, once the response is in,
    plus the expires_in seconds of the response, and plus 3600 seconds
    when the response has no expires_in.  Both directions: whenever the
    mint or the refresh returns normally the stored expiry is that sum;
    and whenever the token request delivers a JSON object whose lifetime
    is usable (an integer number of seconds, or absent, within the range
    of dates), the mint returns normally and so does the refresh, each
    with that expiry stored after one clock reading. *)
Theorem expiry_is_now_plus_expires_in (env : environment) (st : state) :
  (forall st',
      _get_new_access_token env st = (Ok tt, st') \/
      _refresh_access_token env st = (Ok tt, st') ->
      exists d secs,
        delivered (env_http env (http_calls st)) d /\
        expires_in_seconds d = Some secs /\
        (dict_lookup "expires_in" d = None -> secs = 3600) /\
        _token_expiry (self st') = Some (env_now env (clock_reads st) + secs * 1000000) /\
        clock_reads st' = S (clock_reads st)) /\
  (forall d secs,
      delivered (env_http env (http_calls st)) d ->
      expires_in_seconds d = Some secs ->
      -999999999 <= secs / 86400 <= 999999999 ->
      0 <= env_now env (clock_reads st) + secs * 1000000 <= datetime_max ->
      exists st_m st_r,
        _get_new_access_token env st = (Ok tt, st_m) /\
        _refresh_access_token env st = (Ok tt, st_r) /\
        _token_expiry (self st_m) = Some (env_now env (clock_reads st) + secs * 1000000) /\
        _token_expiry (self st_r) = Some (env_now env (clock_reads st) + secs * 1000000) /\
        clock_reads st_m = S (clock_reads st) /\
        clock_reads st_r = S (clock_reads st) /\
        (dict_lookup "expires_in" d = None -> secs = 3600)).
Proof.
  rewrite _get_new_access_token_grant, _refresh_access_token_grant.
  split.
  - intros st' [H|H]; apply token_grant_ok in H;
      destruct H as (d & secs & Hd & Hsecs & Hdefault & Hself & Hclock);
      exists d, secs; rewrite Hself; simpl; auto.
  - intros d secs Hd Hsecs Hrange Hdate.
    rewrite !(token_grant_succeeds _ _ _ _ _ _ Hd Hsecs Hrange Hdate).
    eexists; eexists. split; [reflexivity|]. split; [reflexivity|].
    simpl. rewrite Nat.add_1_r. repeat split.
    intros Hnone. unfold expires_in_seconds in Hsecs. rewrite Hnone in Hsecs.
    now injection Hsecs as <-.
Qed.

Lemma token_grant_mutation (ev : event) (prefix : string) (env : environment) (st : state) :
  credentials (self (snd (token_grant ev prefix env st))) <> credentials (self st) ->
  exists d, delivered (env_http env (http_calls st)) d.
Proof.
  intros H.
  destruct (http_outcome_cases (env_http env (http_calls st)))
    as [(m & Hm) | [(d & Hd) | [(r & v & Hr & Hs & Hc & Hv) | (e & Hr & He)]]].
  - rewrite (token_grant_request_error _ _ _ _ _ Hm) in H. now elim H.
  - now exists d.
  - rewrite (token_grant_not_object _ _ _ _ _ _ Hr Hs Hc Hv) in H. now elim H.
  - rewrite (token_grant_raised _ _ _ _ _ Hr He) in H. now elim H.
Qed.

(** C10. When the outbound call of a mint or of a refresh fails with a
    request error (the call raises one, the status is an error status, or
    the body is not JSON), the attempt ends in the generic exception and
    access_token, refresh_token and expiry are what they were.  In any
    run, the three fields differ after the attempt only if the outbound
    call succeeded and delivered a JSON object. *)
Theorem request_error_keeps_credentials (env : environment) (st : state) :
  (forall m, request_error (env_http env (http_calls st)) = Some m ->
     _get_new_access_token env st =
       (Raise (PyException ("Authentication failed: " ++ m)),
        after_call st (mint_request (self st))) /\
     _refresh_access_token env st =
       (Raise (PyException ("Token refresh failed: " ++ m)),
        after_call st (refresh_request (self st))) /\
     credentials (self (snd (_get_new_access_token env st))) = credentials (self st) /\
     credentials (self (snd (_refresh_access_token env st))) = credentials (self st)) /\
  (credentials (self (snd (_get_new_access_token env st))) <> credentials (self st) ->
     exists d, delivered (env_http env (http_calls st)) d) /\
  (credentials (self (snd (_refresh_access_token env st))) <> credentials (self st) ->
     exists d, delivered (env_http env (http_calls st)) d).
Proof.
  rewrite _get_new_access_token_grant, _refresh_access_token_grant.
  split; [|split].
  - intros m Hm. rewrite !(token_grant_request_error _ _ _ _ _ Hm). auto.
  - apply token_grant_mutation.
  - apply token_grant_mutation.
Qed.

(** ** [get_access_token] *)

Lemma token_is_valid_run (env : environment) (st : state) :
  token_is_valid env st = (Ok (cached_token_valid env st), after_guard st).
Proof.
  run. unfold cached_token_valid, cache_valid, after_guard, after_reads.
  destruct (truthy _); simpl; auto.
  destruct (_token_expiry _); simpl; auto.
  now rewrite Nat.add_1_r.
Qed.

Lemma after_guard_frame (st : state) :
  self (after_guard st) = self st /\
  http_calls (after_guard st) = http_calls st /\
  trace (after_guard st) = trace st.
Proof.
  unfold after_guard. destruct (truthy _); auto. destruct (_token_expiry _); auto.
Qed.

Lemma get_access_token_valid (env : environment) (st : state) :
  cached_token_valid env st = true ->
  get_access_token env st = (Ok (_access_token (self st)), after_reads st 1).
Proof.
  intros H. unfold get_access_token, bind at 1. rewrite token_is_valid_run, H.
  unfold cached_token_valid, cache_valid in H. unfold after_guard.
  destruct (truthy _); try discriminate.
  destruct (_token_expiry _); try discriminate. reflexivity.
Qed.

Lemma get_access_token_stale (env : environment) (st : state) :
  cached_token_valid env st = false ->
  get_access_token env st =
  if truthy (_refresh_token (self st)) then
    match _refresh_access_token env (after_guard st) with
    | (Ok _, st_r) => (Ok (_access_token (self st_r)), st_r)
    | (Raise _, st_r) => mint_and_return env st_r
    end
  else mint_and_return env (after_guard st).
Proof.
  intros H. unfold get_access_token, bind at 1. rewrite token_is_valid_run, H.
  destruct (after_guard_frame st) as (Hself & _).
  unfold bind at 1, get_self at 1. unfold bind at 1. rewrite Hself.
  destruct (truthy (_refresh_token (self st))).
  - unfold try_except, bind at 1, bind at 1.
    destruct (_refresh_access_token env (after_guard st)) as [[[]|e] st_r]; simpl.
    + reflexivity.
    + unfold mint_and_return, bind.
      destruct (_get_new_access_token env st_r) as [[[]|e'] st_m]; reflexivity.
  - unfold ret at 1. unfold mint_and_return, bind.
    destruct (_get_new_access_token env (after_guard st)) as [[[]|e'] st_m]; reflexivity.
Qed.

Lemma after_reads_0 (st : state) : after_reads st 0 = st.
Proof. destruct st; unfold after_reads; simpl. now rewrite Nat.add_0_r. Qed.

Lemma after_reads_S (st : state) (n : nat) :
  after_reads (after_reads st 1) n = after_reads st (S n).
Proof.
  unfold after_reads; simpl. f_equal. now rewrite <- Nat.add_assoc.
Qed.

(** Whatever [get_access_token] returns is the token it leaves cached. *)
Lemma get_access_token_returns_cached (env : environment) (st st' : state) (token : pyval) :
  get_access_token env st = (Ok token, st') -> token = _access_token (self st').
Proof.
  destruct (cached_token_valid env st) eqn:Hv.
  - rewrite (get_access_token_valid _ _ Hv). now intros [= <- <-].
  - rewrite (get_access_token_stale _ _ Hv). unfold mint_and_return.
    destruct (truthy _).
    + destruct (_refresh_access_token env (after_guard st)) as [[[]|e] st_r].
      * now intros [= <- <-].
      * destruct (_get_new_access_token env st_r) as [[[]|e'] st_m]; try discriminate.
        now intros [= <- <-].
    + destruct (_get_new_access_token env (after_guard st)) as [[[]|e'] st_m];
        try discriminate.
      now intros [= <- <-].
Qed.

Lemma get_access_token_times_valid (env : environment) (n : nat) : forall st,
  (forall i, (i < n)%nat ->
     cache_valid (self st) (env_now env (clock_reads st + i)) = true) ->
  get_access_token_times n env st =
  (Ok (repeat (_access_token (self st)) n), after_reads st n).
Proof.
  induction n as [|n IH]; intros st Hvalid; simpl.
  - unfold ret. now rewrite after_reads_0.
  - assert (H0 : cached_token_valid env st = true).
    { unfold cached_token_valid. rewrite <- (Nat.add_0_r (clock_reads st)).
      apply Hvalid. apply Nat.lt_0_succ. }
    unfold bind at 1. rewrite (get_access_token_valid _ _ H0).
    unfold bind at 1. rewrite IH.
    + unfold ret. now rewrite after_reads_S.
    + intros i Hi. simpl. rewrite <- Nat.add_assoc. apply Hvalid.
      simpl. now apply -> Nat.succ_lt_mono.
Qed.

(** The truth test of the guard is what makes a token count as cached:
    an empty string is treated like no token at all. *)
Remark empty_token_is_not_cached (a : AuthService) (refresh : pyval) (now : datetime) :
  cache_valid (with_tokens a (PStr EmptyString) refresh) now = false.
Proof. reflexivity. Qed.

(** C1. Calls of get_access_token made while the cached credential state
    is valid (a token is cached and the clock reading of the call is
    before the expiry) each return the cached token; together they leave
    the service object, the count of HTTP calls and the trace of HTTP
    calls as they were.  In particular the calls that follow a successful
    call, up to the expiry, return its token and reach the network no
    more. *)
Theorem cache_hit_no_network (env : environment) (st : state) (n : nat) :
  (forall i, (i < n)%nat ->
     cache_valid (self st) (env_now env (clock_reads st + i)) = true) ->
  get_access_token_times n env st =
    (Ok (repeat (_access_token (self st)) n), after_reads st n) /\
  self (after_reads st n) = self st /\
  http_calls (after_reads st n) = http_calls st /\
  trace (after_reads st n) = trace st /\
  (forall st0 token,
     get_access_token env st0 = (Ok token, st) ->
     get_access_token_times n env st = (Ok (repeat token n), after_reads st n)).
Proof.
  intros Hvalid.
  pose proof (get_access_token_times_valid env n st Hvalid) as Hrun.
  repeat split; auto.
  intros st0 token H0.
  now rewrite (get_access_token_returns_cached _ _ _ _ H0).
Qed.

Lemma refresh_attempt_frame (env : environment) (st : state) :
  let st_r := snd (_refresh_access_token env (after_guard st)) in
  http_calls st_r = S (http_calls st) /\
  trace st_r = (trace st ++ [refresh_request (self st)])%list /\
  mint_request (self st_r) = mint_request (self st).
Proof.
  rewrite _refresh_access_token_grant.
  destruct (after_guard_frame st) as (Hself & Hcalls & Htrace).
  destruct (token_grant_frame (refresh_request (self (after_guard st)))
              "Token refresh failed: " env (after_guard st))
    as (H1 & H2 & H3 & _ & H5 & H6).
  cbv zeta. split; [|split].
  - now rewrite H1, Hcalls.
  - now rewrite H2, Htrace, Hself.
  - unfold mint_request, oauth_target. now rewrite H3, H5, H6, Hself.
Qed.

Lemma mint_and_return_frame (env : environment) (st : state) :
  http_calls (snd (mint_and_return env st)) = S (http_calls st) /\
  trace (snd (mint_and_return env st)) = (trace st ++ [mint_request (self st)])%list.
Proof.
  unfold mint_and_return.
  destruct (token_grant_frame (mint_request (self st)) "Authentication failed: " env st)
    as (H1 & H2 & _).
  rewrite <- _get_new_access_token_grant in H1, H2.
  destruct (_get_new_access_token env st) as [[[]|e] st']; simpl in *; auto.
Qed.

(** C2. A call of get_access_token that finds the cached token not valid
    and a refresh token cached sends the refresh-grant request first and
    once; what follows in that call, if anything, is one credential-grant
    request. *)
Theorem refresh_before_mint (env : environment) (st : state) :
  cached_token_valid env st = false ->
  truthy (_refresh_token (self st)) = true ->
  exists later,
    trace (snd (get_access_token env st)) =
      (trace st ++ refresh_request (self st) :: later)%list /\
    (later = [] \/ later = [mint_request (self st)]) /\
    is_refresh_grant (refresh_request (self st)) = true /\
    existsb is_refresh_grant later = false /\
    forallb is_credential_grant later = true /\
    http_calls (snd (get_access_token env st)) = (http_calls st + 1 + List.length later)%nat.
Proof.
  intros Hstale Hrefresh.
  rewrite (get_access_token_stale _ _ Hstale), Hrefresh.
  destruct (refresh_attempt_frame env st) as (Hcalls & Htrace & Hmint).
  destruct (_refresh_access_token env (after_guard st)) as [[[]|e] st_r]; simpl in *.
  - exists []. rewrite Htrace, Hcalls. repeat split; auto.
    now rewrite Nat.add_0_r, Nat.add_1_r.
  - exists [mint_request (self st)].
    destruct (mint_and_return_frame env st_r) as (Hcalls' & Htrace').
    rewrite Htrace', Hcalls', Htrace, Hcalls, Hmint, <- app_assoc. simpl.
    repeat split; auto.
    now rewrite Nat.add_1_r, Nat.add_1_r.
Qed.

(** C3. When the refresh attempt of a call of get_access_token fails, the
    call goes on to the credential-grant request and its outcome is the
    outcome of that mint alone: the token of the mint response when the
    mint succeeds, the exception of the mint otherwise, which for a
    request error is the generic "Authentication failed" exception.  The
    exception of the refresh is not seen by the caller, and no request
    follows the mint. *)
Theorem failed_refresh_falls_back_to_mint
    (env : environment) (st st_r : state) (e : exn) :
  cached_token_valid env st = false ->
  truthy (_refresh_token (self st)) = true ->
  _refresh_access_token env (after_guard st) = (Raise e, st_r) ->
  get_access_token env st = mint_and_return env st_r /\
  trace (snd (get_access_token env st)) =
    (trace st ++ [refresh_request (self st); mint_request (self st)])%list /\
  (forall token st',
     get_access_token env st = (Ok token, st') ->
     exists d, delivered (env_http env (S (http_calls st))) d /\
               token = dict_get d "access_token" PNone /\
               _get_new_access_token env st_r = (Ok tt, st')) /\
  (forall e' st',
     _get_new_access_token env st_r = (Raise e', st') ->
     get_access_token env st = (Raise e', st')) /\
  (forall m,
     request_error (env_http env (S (http_calls st))) = Some m ->
     get_access_token env st =
       (Raise (PyException ("Authentication failed: " ++ m)),
        after_call st_r (mint_request (self st)))).
Proof.
  intros Hstale Hrefresh Hfail.
  pose proof (refresh_attempt_frame env st) as Hframe.
  rewrite Hfail in Hframe; simpl in Hframe. destruct Hframe as (Hcalls & Htrace & Hmint).
  assert (Hrun : get_access_token env st = mint_and_return env st_r).
  { now rewrite (get_access_token_stale _ _ Hstale), Hrefresh, Hfail. }
  rewrite Hrun. split; [reflexivity|]. split; [|split; [|split]].
  - destruct (mint_and_return_frame env st_r) as (_ & ->).
    now rewrite Htrace, Hmint, <- app_assoc.
  - intros token st'. unfold mint_and_return.
    destruct (_get_new_access_token env st_r) as [[[]|e'] st_m] eqn:Hm; try discriminate.
    intros [= <- <-].
    rewrite _get_new_access_token_grant in Hm.
    apply token_grant_ok in Hm. destruct Hm as (d & secs & Hd & _ & _ & Hself & _).
    exists d. rewrite <- Hcalls. split; [exact Hd|]. split; [now rewrite Hself|].
    reflexivity.
  - intros e' st' Hm. unfold mint_and_return. now rewrite Hm.
  - intros m Hm. rewrite <- Hcalls in Hm. unfold mint_and_return.
    rewrite _get_new_access_token_grant, (token_grant_request_error _ _ _ _ _ Hm).
    now rewrite Hmint.
Qed.

(** ** Headers and token validation *)

Section Headers.

Variable str_other : pyval -> string.

(** C7. With a static API key configured, get_headers returns
    Content-Type, Accept and the X-Atlan-API-Key header and leaves the
    whole state as it was: get_access_token is not called, so nothing is
    minted or refreshed, whatever the client id and secret are.  Without
    one, it calls get_access_token once and returns Content-Type, Accept
    and one Authorization: Bearer header made of the token obtained. *)
Theorem get_headers_modes (env : environment) (st : state) :
  (api_key_configured (self st) = true ->
   exists key,
     api_key (self st) = Some key /\
     get_headers str_other env st =
       (Ok [("Content-Type", "application/json"); ("Accept", "application/json");
            ("X-Atlan-API-Key", key)], st)) /\
  (api_key_configured (self st) = false ->
   get_headers str_other env st =
     match get_access_token env st with
     | (Ok token, st') =>
         (Ok [("Content-Type", "application/json"); ("Accept", "application/json");
              ("Authorization", "Bearer " ++ py_str str_other token)], st')
     | (Raise e, st') => (Raise e, st')
     end).
Proof.
  unfold api_key_configured, opt_str, get_headers, bind, get_self, ret.
  destruct (api_key (self st)) as [key|]; split; intros H.
  - exists key. rewrite H. split; reflexivity.
  - rewrite H. destruct (get_access_token env st) as [[token|e] st']; reflexivity.
  - discriminate.
  - destruct (get_access_token env st) as [[token|e] st']; reflexivity.
Qed.

(** C6. validate_token never raises: it returns true when the GET to the
    current-user endpoint returns with status 200, false when it returns
    with any other status, and false when it raises. *)
Theorem validate_token_iff_200 (token : pyval) (env : environment) (st : state) :
  fst (validate_token str_other token env st) =
    Ok (match env_http env (http_calls st) with
        | Returned r => status_code r =? 200
        | Raised _ => false
        end) /\
  (fst (validate_token str_other token env st) = Ok true <->
   exists r, env_http env (http_calls st) = Returned r /\ status_code r = 200) /\
  (forall e, fst (validate_token str_other token env st) <> Raise e) /\
  snd (validate_token str_other token env st) =
    after_call st (GET (split_head "/api" (api_url (self st)) ++ "/api/v2/users/current")
                       [] [("Authorization", "Bearer " ++ py_str str_other token)]).
Proof.
  unfold validate_token. run.
  destruct (env_http env (http_calls st)) as [e|r]; simpl.
  - repeat split; try discriminate.
    intros (r & Hr & _). discriminate.
  - repeat split; try discriminate.
    + intros [= H]. exists r. split; auto. now apply Z.eqb_eq.
    + intros (r' & [= <-] & H). f_equal. now apply Z.eqb_eq.
Qed.

End Headers.

(** ** The theorems at work on concrete runs *)

Lemma cache_hit_no_network_example :
  get_access_token example_env example_state = (Ok (PStr "T1"), minted_state) /\
  get_access_token_times 3 example_env minted_state =
    (Ok [PStr "T1"; PStr "T1"; PStr "T1"], after_reads minted_state 3).
Proof.
  split; [reflexivity|].
  apply (cache_hit_no_network example_env minted_state 3).
  intros i Hi. destruct i as [|[|[|i]]]; [reflexivity | reflexivity | reflexivity | lia].
Defined.

Lemma refresh_before_mint_example :
  exists later,
    trace (snd (get_access_token rejecting_env stale_state)) =
      (trace stale_state ++ refresh_request (self stale_state) :: later)%list /\
    (later = [] \/ later = [mint_request (self stale_state)]) /\
    is_refresh_grant (refresh_request (self stale_state)) = true /\
    existsb is_refresh_grant later = false /\
    forallb is_credential_grant later = true /\
    http_calls (snd (get_access_token rejecting_env stale_state)) =
      (http_calls stale_state + 1 + List.length later)%nat.
Proof.
  apply (refresh_before_mint rejecting_env stale_state); reflexivity.
Defined.

Lemma failed_refresh_falls_back_to_mint_example :
  trace (snd (get_access_token rejecting_env stale_state)) =
    [refresh_request (self stale_state); mint_request (self stale_state)] /\
  fst (get_access_token rejecting_env stale_state) = Ok (PStr "T1").
Proof.
  split; [|reflexivity].
  refine (proj1 (proj2 (failed_refresh_falls_back_to_mint rejecting_env stale_state
            (snd (_refresh_access_token rejecting_env (after_guard stale_state)))
            (PyException
               "Token refresh failed: 401 Client Error: Unauthorized for url: https://tenant.atlan.com/oauth/token")
            _ _ _))); reflexivity.
Defined.

Lemma validate_token_iff_200_example :
  fst (validate_token str_scalar (PStr "T1") example_env example_state) = Ok true /\
  fst (validate_token str_scalar (PStr "T1") rejecting_env example_state) = Ok false.
Proof.
  split.
  - apply (proj1 (proj2 (validate_token_iff_200 str_scalar (PStr "T1") example_env
                           example_state))).
    eexists; split; reflexivity.
  - reflexivity.
Defined.

Lemma get_headers_modes_example :
  exists key,
    api_key (self api_key_state) = Some key /\
    get_headers str_scalar rejecting_env api_key_state =
      (Ok [("Content-Type", "application/json"); ("Accept", "application/json");
           ("X-Atlan-API-Key", key)], api_key_state).
Proof.
  apply (proj1 (get_headers_modes str_scalar rejecting_env api_key_state)).
  reflexivity.
Defined.

Lemma expiry_is_now_plus_expires_in_example :
  (exists st_m st_r,
      _get_new_access_token example_env stale_state = (Ok tt, st_m) /\
      _refresh_access_token example_env stale_state = (Ok tt, st_r) /\
      _token_expiry (self st_m) = Some 61000000 /\
      _token_expiry (self st_r) = Some 61000000) /\
  (exists d secs,
      delivered (env_http example_env (http_calls stale_state)) d /\
      expires_in_seconds d = Some secs /\
      (dict_lookup "expires_in" d = None -> secs = 3600) /\
      _token_expiry (self (snd (_refresh_access_token example_env stale_state))) =
        Some (env_now example_env (clock_reads stale_state) + secs * 1000000) /\
      clock_reads (snd (_refresh_access_token example_env stale_state)) =
        S (clock_reads stale_state)).
Proof.
  split.
  - destruct (proj2 (expiry_is_now_plus_expires_in example_env stale_state)
                [("access_token", PStr "T1"); ("refresh_token", PStr "R1");
                 ("expires_in", PInt 60)] 60)
      as (st_m & st_r & Hm & Hr & Hem & Her & _).
    + eexists. repeat split; reflexivity.
    + reflexivity.
    + split; apply Z.leb_le; reflexivity.
    + split; apply Z.leb_le; reflexivity.
    + exists st_m, st_r. auto.
  - apply (proj1 (expiry_is_now_plus_expires_in example_env stale_state)
             (snd (_refresh_access_token example_env stale_state))).
    right; reflexivity.
Defined.

Lemma request_error_keeps_credentials_example :
  _get_new_access_token rejecting_env example_state =
    (Raise (PyException
       "Authentication failed: 401 Client Error: Unauthorized for url: https://tenant.atlan.com/oauth/token"),
     after_call example_state (mint_request (self example_state))) /\
  credentials (self (snd (_get_new_access_token rejecting_env example_state))) =
    credentials (self example_state).
Proof.
  destruct (proj1 (request_error_keeps_credentials rejecting_env example_state)
              "401 Client Error: Unauthorized for url: https://tenant.atlan.com/oauth/token"
              eq_refl) as (Hmint & _ & Hsame & _).
  exact (conj Hmint Hsame).
Defined.

(** ** The rest of the services *)

Lemma fetch_run (ev : event) (prefix : string) (env : environment) (st : state) :
  try_except
    (response <- http ev ;;
     lift (raise_for_status response) ;;;
     lift (response_json response))
    is_request_exception
    (fun e => raise (PyException (prefix ++ exn_str e))) env st =
  (fetch_outcome prefix (env_http env (http_calls st)), after_call st ev).
Proof.
  run. unfold fetch_outcome, response_json.
  destruct (env_http env (http_calls st)) as [e|r]; simpl.
  - destruct (is_request_exception e); reflexivity.
  - destruct (raise_for_status r) as [[]|e] eqn:Hs; simpl.
    + destruct (content r); reflexivity.
    + destruct (raise_for_status_request_exception _ _ Hs) as (m & ->). reflexivity.
Qed.

Lemma fetch_outcome_json (prefix : string) (o : http_outcome) (v : pyval) :
  json_body o v -> fetch_outcome prefix o = Ok v.
Proof.
  intros (r & -> & Hs & Hc). unfold fetch_outcome. now rewrite Hs, Hc.
Qed.

Lemma fetch_outcome_request_error (prefix : string) (o : http_outcome) (m : string) :
  request_error o = Some m -> fetch_outcome prefix o = Raise (PyException (prefix ++ m)).
Proof.
  unfold request_error, fetch_outcome. destruct o as [e|r].
  - destruct e; try discriminate. now intros [= <-].
  - destruct (raise_for_status r) as [[]|e].
    + destruct (content r); try discriminate. now intros [= <-].
    + now intros [= <-].
Qed.

Lemma fetch_outcome_Ok (prefix : string) (o : http_outcome) (v : pyval) :
  fetch_outcome prefix o = Ok v -> json_body o v.
Proof.
  unfold fetch_outcome, json_body. destruct o as [e|r].
  - destruct (is_request_exception e); discriminate.
  - destruct (raise_for_status r) as [[]|e] eqn:Hs; try discriminate.
    destruct (content r) eqn:Hc; try discriminate.
    intros [= <-]. eauto.
Qed.

(** What a request-and-decode block raises is never a bare request
    exception. *)
Lemma fetch_outcome_Raise (prefix : string) (o : http_outcome) (e : exn) :
  fetch_outcome prefix o = Raise e -> is_request_exception e = false.
Proof.
  unfold fetch_outcome. destruct o as [e'|r].
  - destruct (is_request_exception e') eqn:He; intros [= <-]; auto.
  - destruct (raise_for_status r) as [[]|e'']; [|now intros [= <-]].
    destruct (content r); [now intros [= <-] | discriminate].
Qed.

Section MoreService.

Variable str_other : pyval -> string.

Lemma get_user_info_with_token_run (token : pyval) (env : environment) (st : state) :
  truthy token = true ->
  get_user_info str_other token env st =
  (fetch_outcome "Failed to get user information: " (env_http env (http_calls st)),
   after_call st (user_info_request (self st) (py_str str_other token))).
Proof.
  intros Htoken. unfold get_user_info.
  unfold bind at 1, get_self. unfold bind at 1. rewrite Htoken. unfold ret at 1.
  unfold requests_get. now rewrite fetch_run.
Qed.

(** X1. Called with a token, get_user_info sends one GET to the
    current-user endpoint with that bearer token and does nothing else: the
    token cache and the clock are not touched.  It returns the decoded
    JSON of a non-error response and raises "Failed to get user
    information: ..." on a request error. *)
Theorem get_user_info_with_token (token : pyval) (env : environment) (st : state) :
  truthy token = true ->
  snd (get_user_info str_other token env st) =
    after_call st (user_info_request (self st) (py_str str_other token)) /\
  (forall v, json_body (env_http env (http_calls st)) v ->
             fst (get_user_info str_other token env st) = Ok v) /\
  (forall m, request_error (env_http env (http_calls st)) = Some m ->
             fst (get_user_info str_other token env st) =
             Raise (PyException ("Failed to get user information: " ++ m))).
Proof.
  intros Htoken. rewrite (get_user_info_with_token_run _ _ _ Htoken). cbn [fst snd].
  split; [reflexivity|]. split.
  - intros v Hv. now apply fetch_outcome_json.
  - intros m Hm. now apply fetch_outcome_request_error.
Qed.

Lemma get_user_info_without_token_run (token : pyval) (env : environment) (st : state) :
  truthy token = false ->
  get_user_info str_other token env st =
  match get_access_token env st with
  | (Ok service_token, st') =>
      (fetch_outcome "Failed to get user information: " (env_http env (http_calls st')),
       after_call st' (user_info_request (self st) (py_str str_other service_token)))
  | (Raise e, st') => (Raise e, st')
  end.
Proof.
  intros Htoken. unfold get_user_info.
  unfold bind at 1, get_self. unfold bind at 1. rewrite Htoken. unfold bind at 1.
  destruct (get_access_token env st) as [[service_token|e] st']; [|reflexivity].
  unfold ret at 1. unfold requests_get. now rewrite fetch_run.
Qed.

End MoreService.

(** ** What [get_access_token] never does *)

Lemma token_grant_Raise (ev : event) (prefix : string) (env : environment)
    (st st' : state) (e : exn) :
  token_grant ev prefix env st = (Raise e, st') -> is_request_exception e = false.
Proof.
  destruct (http_outcome_cases (env_http env (http_calls st)))
    as [(m & Hm) | [(d & Hd) | [(r & v & Hr & Hs & Hc & Hv) | (e' & Hr & He)]]].
  - rewrite (token_grant_request_error _ _ _ _ _ Hm). now intros [= <- _].
  - rewrite (token_grant_delivered _ _ _ _ _ Hd).
    destruct (timedelta_seconds _) as [delta|e'] eqn:Hdelta; simpl.
    + destruct (datetime_add _ _) as [t|e'] eqn:Ht; [discriminate|].
      intros [= <- _]. eapply datetime_add_exception; eauto.
    + intros [= <- _]. eapply timedelta_seconds_exception; eauto.
  - rewrite (token_grant_not_object _ _ _ _ _ _ Hr Hs Hc Hv). now intros [= <- _].
  - rewrite (token_grant_raised _ _ _ _ _ Hr He). now intros [= <- _].
Qed.

Lemma token_grant_configuration (ev : event) (prefix : string) (env : environment)
    (st : state) :
  configuration (self (snd (token_grant ev prefix env st))) = configuration (self st).
Proof.
  destruct (token_grant_frame ev prefix env st) as (_ & _ & H1 & H2 & H3 & H4).
  unfold configuration. now rewrite H1, H2, H3, H4.
Qed.

Lemma mint_request_configuration (a a' : AuthService) :
  configuration a = configuration a' -> mint_request a = mint_request a'.
Proof.
  unfold configuration, mint_request, oauth_target. now intros [= -> _ -> ->].
Qed.

Lemma mint_and_return_Raise (env : environment) (st st' : state) (e : exn) :
  mint_and_return env st = (Raise e, st') -> is_request_exception e = false.
Proof.
  unfold mint_and_return. rewrite _get_new_access_token_grant.
  destruct (token_grant _ _ env st) as [[[]|e'] st''] eqn:H; [discriminate|].
  intros [= <- _]. eapply token_grant_Raise; eauto.
Qed.

Lemma mint_and_return_configuration (env : environment) (st : state) :
  configuration (self (snd (mint_and_return env st))) = configuration (self st).
Proof.
  unfold mint_and_return. rewrite _get_new_access_token_grant.
  pose proof (token_grant_configuration (mint_request (self st))
                "Authentication failed: " env st) as H.
  destruct (token_grant _ _ env st) as [[[]|e'] st'']; exact H.
Qed.

(** A failure of [get_access_token] is never a bare request exception:
    those of the mint are rewrapped, those of the refresh swallowed. *)
Lemma get_access_token_Raise (env : environment) (st st' : state) (e : exn) :
  get_access_token env st = (Raise e, st') -> is_request_exception e = false.
Proof.
  destruct (cached_token_valid env st) eqn:Hv.
  - rewrite (get_access_token_valid _ _ Hv). discriminate.
  - rewrite (get_access_token_stale _ _ Hv).
    destruct (truthy _).
    + destruct (_refresh_access_token env (after_guard st)) as [[[]|e'] st_r];
        [discriminate|].
      apply mint_and_return_Raise.
    + apply mint_and_return_Raise.
Qed.

(** X2. One call of get_access_token sends at most two requests, and
    only token requests: nothing, the refresh grant alone, the credential
    grant alone, or the refresh grant followed by the credential grant.
    It never changes the configuration of the service, and it never
    raises a bare request exception. *)
Theorem get_access_token_footprint (env : environment) (st : state) :
  let st' := snd (get_access_token env st) in
  (exists fresh,
      trace st' = (trace st ++ fresh)%list /\
      http_calls st' = (http_calls st + List.length fresh)%nat /\
      (fresh = [] \/ fresh = [refresh_request (self st)] \/
       fresh = [mint_request (self st)] \/
       fresh = [refresh_request (self st); mint_request (self st)])) /\
  configuration (self st') = configuration (self st) /\
  (forall e, fst (get_access_token env st) = Raise e -> is_request_exception e = false).
Proof.
  cbv zeta. split; [|split].
  - destruct (cached_token_valid env st) eqn:Hv.
    + rewrite (get_access_token_valid _ _ Hv). exists []. simpl.
      now rewrite app_nil_r, Nat.add_0_r; auto.
    + rewrite (get_access_token_stale _ _ Hv).
      destruct (after_guard_frame st) as (Hself & Hcalls & Htrace).
      destruct (truthy _).
      * destruct (refresh_attempt_frame env st) as (Hc & Ht & Hm).
        destruct (_refresh_access_token env (after_guard st)) as [[[]|e] st_r];
          simpl in Hc, Ht, Hm.
        -- exists [refresh_request (self st)]. simpl.
           rewrite Ht, Hc, Nat.add_1_r. auto.
        -- exists [refresh_request (self st); mint_request (self st)].
           destruct (mint_and_return_frame env st_r) as (Hc' & Ht').
           rewrite Ht', Hc', Ht, Hc, Hm, <- app_assoc. simpl.
           rewrite Nat.add_succ_r, Nat.add_1_r. auto 6.
      * exists [mint_request (self st)].
        destruct (mint_and_return_frame env (after_guard st)) as (Hc' & Ht').
        rewrite Ht', Hc', Htrace, Hcalls, Hself. simpl.
        rewrite Nat.add_1_r. auto 6.
  - destruct (cached_token_valid env st) eqn:Hv.
    + now rewrite (get_access_token_valid _ _ Hv).
    + rewrite (get_access_token_stale _ _ Hv).
      destruct (after_guard_frame st) as (Hself & _).
      destruct (truthy _).
      * pose proof (token_grant_configuration (refresh_request (self (after_guard st)))
                      "Token refresh failed: " env (after_guard st)) as Hr.
        rewrite <- _refresh_access_token_grant in Hr.
        destruct (_refresh_access_token env (after_guard st)) as [[[]|e] st_r];
          simpl in Hr.
        -- simpl. now rewrite Hr, Hself.
        -- now rewrite mint_and_return_configuration, Hr, Hself.
      * now rewrite mint_and_return_configuration, Hself.
  - intros e H.
    destruct (get_access_token env st) as [r st'] eqn:Hrun. simpl in H. subst r.
    eapply get_access_token_Raise; eauto.
Qed.

(** X3. A call that finds the cached token not valid and no refresh token
    cached goes straight to the credential grant: it sends that one
    request and nothing else, and its outcome is the outcome of the mint.
    This is what the first call on a fresh service does. *)
Theorem stale_without_refresh_token_mints (env : environment) (st : state) :
  cached_token_valid env st = false ->
  truthy (_refresh_token (self st)) = false ->
  get_access_token env st = mint_and_return env (after_guard st) /\
  trace (snd (get_access_token env st)) = (trace st ++ [mint_request (self st)])%list /\
  http_calls (snd (get_access_token env st)) = S (http_calls st).
Proof.
  intros Hstale Hrefresh.
  rewrite (get_access_token_stale _ _ Hstale), Hrefresh.
  destruct (after_guard_frame st) as (Hself & Hcalls & Htrace).
  destruct (mint_and_return_frame env (after_guard st)) as (Hc & Ht).
  now rewrite Hc, Ht, Hself, Hcalls, Htrace.
Qed.

Lemma get_access_token_refreshed (env : environment) (st : state)
    (d : list (string * pyval)) (expiry : datetime) :
  cached_token_valid env st = false ->
  truthy (_refresh_token (self st)) = true ->
  delivered (env_http env (http_calls st)) d ->
  rbind (timedelta_seconds (dict_get d "expires_in" (PInt 3600)))
        (datetime_add (env_now env (clock_reads (after_guard st)))) = Ok expiry ->
  get_access_token env st =
  (Ok (dict_get d "access_token" PNone),
   with_self (after_reads (after_call (after_guard st) (refresh_request (self st))) 1)
     (with_expiry (with_tokens (self st) (dict_get d "access_token" PNone)
                               (dict_get d "refresh_token" PNone)) expiry)).
Proof.
  intros Hstale Hrefresh Hd Hexpiry.
  rewrite (get_access_token_stale _ _ Hstale), Hrefresh.
  destruct (after_guard_frame st) as (Hself & Hcalls & Htrace).
  rewrite <- Hcalls in Hd.
  rewrite _refresh_access_token_grant, (token_grant_delivered _ _ _ _ _ Hd), Hexpiry.
  now rewrite Hself.
Qed.

(** X4. When the refresh grant succeeds, get_access_token returns the
    access token of the refresh response after that single request, and
    the cache holds the response's tokens and the new expiry.  The cached
    refresh token is replaced too: a response without refresh_token leaves
    the service without one. *)
Theorem successful_refresh_replaces_tokens (env : environment) (st : state)
    (d : list (string * pyval)) (expiry : datetime) :
  cached_token_valid env st = false ->
  truthy (_refresh_token (self st)) = true ->
  delivered (env_http env (http_calls st)) d ->
  rbind (timedelta_seconds (dict_get d "expires_in" (PInt 3600)))
        (datetime_add (env_now env (clock_reads (after_guard st)))) = Ok expiry ->
  let st' := snd (get_access_token env st) in
  fst (get_access_token env st) = Ok (dict_get d "access_token" PNone) /\
  credentials (self st') =
    (dict_get d "access_token" PNone, dict_get d "refresh_token" PNone, Some expiry) /\
  trace st' = (trace st ++ [refresh_request (self st)])%list /\
  (dict_lookup "refresh_token" d = None -> _refresh_token (self st') = PNone).
Proof.
  intros Hstale Hrefresh Hd Hexpiry.
  rewrite (get_access_token_refreshed _ _ _ _ Hstale Hrefresh Hd Hexpiry).
  destruct (after_guard_frame st) as (_ & _ & Htrace).
  cbn [fst snd]. repeat split.
  - simpl. now rewrite Htrace.
  - intros Hnone. simpl. unfold dict_get. now rewrite Hnone.
Qed.

(** X5. A token response whose lifetime cannot be turned into an expiry
    (expires_in is not a number, or is out of range) makes the mint and
    the refresh raise that very exception, not the generic one, after
    they have stored the new access and refresh tokens: the cache is left
    with the new tokens and the old expiry. *)
Theorem unusable_expires_in_tears_cache (env : environment) (st : state)
    (d : list (string * pyval)) (e : exn) :
  delivered (env_http env (http_calls st)) d ->
  rbind (timedelta_seconds (dict_get d "expires_in" (PInt 3600)))
        (datetime_add (env_now env (clock_reads st))) = Raise e ->
  fst (_get_new_access_token env st) = Raise e /\
  fst (_refresh_access_token env st) = Raise e /\
  credentials (self (snd (_get_new_access_token env st))) =
    (dict_get d "access_token" PNone, dict_get d "refresh_token" PNone,
     _token_expiry (self st)) /\
  credentials (self (snd (_refresh_access_token env st))) =
    (dict_get d "access_token" PNone, dict_get d "refresh_token" PNone,
     _token_expiry (self st)) /\
  is_request_exception e = false.
Proof.
  intros Hd He.
  rewrite _get_new_access_token_grant, _refresh_access_token_grant.
  rewrite !(token_grant_delivered _ _ _ _ _ Hd), He. cbn [fst snd].
  repeat split.
  destruct (timedelta_seconds _) as [delta|e'] eqn:Hdelta; simpl in He.
  - eapply datetime_add_exception; eauto.
  - injection He as <-. eapply timedelta_seconds_exception; eauto.
Qed.

Lemma stale_sends_a_request (env : environment) (st : state) :
  cached_token_valid env st = false ->
  (S (http_calls st) <= http_calls (snd (get_access_token env st)))%nat.
Proof.
  intros Hstale. rewrite (get_access_token_stale _ _ Hstale).
  destruct (after_guard_frame st) as (Hself & Hcalls & Htrace).
  destruct (truthy _).
  - destruct (refresh_attempt_frame env st) as (Hc & _).
    destruct (_refresh_access_token env (after_guard st)) as [[[]|e] st_r]; simpl in Hc.
    + simpl. rewrite Hc. apply Nat.le_refl.
    + destruct (mint_and_return_frame env st_r) as (Hc' & _).
      rewrite Hc', Hc. apply Nat.le_succ_diag_r.
  - destruct (mint_and_return_frame env (after_guard st)) as (Hc' & _).
    rewrite Hc', Hcalls. apply Nat.le_refl.
Qed.

(** While no usable access token is delivered, none gets cached. *)
Lemma token_grant_keeps_tokenless (ev : event) (prefix : string) (env : environment)
    (st : state) :
  delivers_no_token env ->
  truthy (_access_token (self st)) = false ->
  truthy (_access_token (self (snd (token_grant ev prefix env st)))) = false.
Proof.
  intros Henv Hst.
  destruct (http_outcome_cases (env_http env (http_calls st)))
    as [(m & Hm) | [(d & Hd) | [(r & v & Hr & Hs & Hc & Hv) | (e & Hr & He)]]].
  - now rewrite (token_grant_request_error _ _ _ _ _ Hm).
  - rewrite (token_grant_delivered _ _ _ _ _ Hd).
    pose proof (Henv _ _ Hd) as Htoken.
    destruct (rbind _ _); exact Htoken.
  - now rewrite (token_grant_not_object _ _ _ _ _ _ Hr Hs Hc Hv).
  - now rewrite (token_grant_raised _ _ _ _ _ Hr He).
Qed.

Lemma mint_and_return_keeps_tokenless (env : environment) (st : state) :
  delivers_no_token env ->
  truthy (_access_token (self st)) = false ->
  truthy (_access_token (self (snd (mint_and_return env st)))) = false.
Proof.
  intros Henv Hst.
  pose proof (token_grant_keeps_tokenless (mint_request (self st))
                "Authentication failed: " env st Henv Hst) as H.
  unfold mint_and_return. rewrite _get_new_access_token_grant.
  destruct (token_grant _ _ env st) as [[[]|e] st']; exact H.
Qed.

Lemma get_access_token_keeps_tokenless (env : environment) (st : state) :
  delivers_no_token env ->
  truthy (_access_token (self st)) = false ->
  truthy (_access_token (self (snd (get_access_token env st)))) = false /\
  (S (http_calls st) <= http_calls (snd (get_access_token env st)))%nat.
Proof.
  intros Henv Hst.
  assert (Hstale : cached_token_valid env st = false).
  { unfold cached_token_valid, cache_valid. now rewrite Hst. }
  split; [|now apply stale_sends_a_request].
  rewrite (get_access_token_stale _ _ Hstale).
  destruct (after_guard_frame st) as (Hself & _).
  assert (Hguard : truthy (_access_token (self (after_guard st))) = false)
    by now rewrite Hself.
  destruct (truthy (_refresh_token (self st))).
  - pose proof (token_grant_keeps_tokenless (refresh_request (self (after_guard st)))
                  "Token refresh failed: " env (after_guard st) Henv Hguard) as Hr.
    rewrite <- _refresh_access_token_grant in Hr.
    destruct (_refresh_access_token env (after_guard st)) as [[[]|e] st_r];
      simpl in Hr.
    + exact Hr.
    + now apply mint_and_return_keeps_tokenless.
  - now apply mint_and_return_keeps_tokenless.
Qed.

Lemma tokenless_calls_all_send (env : environment) (n : nat) : forall st,
  delivers_no_token env ->
  truthy (_access_token (self st)) = false ->
  (http_calls st + n <= http_calls (state_after_calls n env st))%nat.
Proof.
  induction n as [|n IH]; intros st Henv Hst; simpl.
  - rewrite Nat.add_0_r. apply Nat.le_refl.
  - destruct (get_access_token_keeps_tokenless env st Henv Hst) as (Hnext & Hsent).
    eapply Nat.le_trans; [|apply (IH _ Henv Hnext)].
    rewrite Nat.add_succ_r. simpl.
    now apply Nat.add_le_mono_r with (p := n) in Hsent.
Qed.

(** X6. A token response without a usable access_token (absent, null or
    empty) is taken as a success: get_access_token returns that value
    without raising.  The cache it leaves is valid at no time, so the next
    call sends a token request again, whatever the vendor then answers;
    and for as long as the vendor delivers no usable access_token every
    later call does: n further calls send at least n requests. *)
Theorem mint_without_access_token (env : environment) (st : state)
    (d : list (string * pyval)) (expiry : datetime) :
  cached_token_valid env st = false ->
  truthy (_refresh_token (self st)) = false ->
  delivered (env_http env (http_calls st)) d ->
  truthy (dict_get d "access_token" PNone) = false ->
  rbind (timedelta_seconds (dict_get d "expires_in" (PInt 3600)))
        (datetime_add (env_now env (clock_reads (after_guard st)))) = Ok expiry ->
  let st' := snd (get_access_token env st) in
  fst (get_access_token env st) = Ok (dict_get d "access_token" PNone) /\
  (forall now, cache_valid (self st') now = false) /\
  (forall env',
      (S (http_calls st') <= http_calls (snd (get_access_token env' st')))%nat) /\
  (forall env' n,
      delivers_no_token env' ->
      (http_calls st' + n <= http_calls (state_after_calls n env' st'))%nat).
Proof.
  intros Hstale Hrefresh Hd Htoken Hexpiry.
  assert (Hrun : get_access_token env st =
    (Ok (dict_get d "access_token" PNone),
     with_self (after_reads (after_call (after_guard st) (mint_request (self st))) 1)
       (with_expiry (with_tokens (self st) (dict_get d "access_token" PNone)
                                 (dict_get d "refresh_token" PNone)) expiry))).
  { rewrite (get_access_token_stale _ _ Hstale), Hrefresh.
    destruct (after_guard_frame st) as (Hself & Hcalls & Htrace).
    rewrite <- Hcalls in Hd. unfold mint_and_return.
    rewrite _get_new_access_token_grant, (token_grant_delivered _ _ _ _ _ Hd), Hexpiry.
    now rewrite Hself. }
  rewrite Hrun. cbn [fst snd].
  assert (Hnever : forall now,
    cache_valid (with_expiry (with_tokens (self st) (dict_get d "access_token" PNone)
                                          (dict_get d "refresh_token" PNone)) expiry)
                now = false).
  { intros now. unfold cache_valid. simpl. now rewrite Htoken. }
  split; [reflexivity|]. split; [exact Hnever|]. split.
  - intros env'. apply stale_sends_a_request. apply Hnever.
  - intros env' n Henv. apply tokenless_calls_all_send; [exact Henv | exact Htoken].
Qed.

Section HeadersRuns.

Variable str_other : pyval -> string.

Lemma get_headers_api_key_run (env : environment) (st : state) (key : string) :
  api_key (self st) = Some key -> truthy (PStr key) = true ->
  get_headers str_other env st = (Ok (api_key_headers key), st).
Proof.
  intros Hkey Htruthy. unfold get_headers, bind, get_self, ret.
  now rewrite Hkey, Htruthy.
Qed.

Lemma get_headers_oauth_run (env : environment) (st : state) :
  api_key_configured (self st) = false ->
  get_headers str_other env st =
  match get_access_token env st with
  | (Ok token, st') => (Ok (bearer_headers (py_str str_other token)), st')
  | (Raise e, st') => (Raise e, st')
  end.
Proof.
  unfold api_key_configured, opt_str, get_headers, bind, get_self, ret.
  destruct (api_key (self st)) as [key|]; intros H.
  - rewrite H. destruct (get_access_token env st) as [[token|e] st']; reflexivity.
  - destruct (get_access_token env st) as [[token|e] st']; reflexivity.
Qed.

Lemma get_headers_Raise (env : environment) (st st' : state) (e : exn) :
  get_headers str_other env st = (Raise e, st') -> is_request_exception e = false.
Proof.
  destruct (api_key_configured (self st)) eqn:Hmode.
  - unfold api_key_configured, opt_str in Hmode.
    destruct (api_key (self st)) as [key|] eqn:Hkey; [|discriminate].
    now rewrite (get_headers_api_key_run _ _ _ Hkey Hmode).
  - rewrite (get_headers_oauth_run _ _ Hmode).
    destruct (get_access_token env st) as [[token|e'] st''] eqn:Hrun; [discriminate|].
    intros [= <- _]. eapply get_access_token_Raise; eauto.
Qed.

(** X7. Without an API key and with a valid cached token, get_headers
    sends nothing: it returns Content-Type, Accept and the bearer header
    of the cached token, and only the clock has been read. *)
Theorem get_headers_cache_hit (env : environment) (st : state) :
  api_key_configured (self st) = false ->
  cached_token_valid env st = true ->
  get_headers str_other env st =
    (Ok (bearer_headers (py_str str_other (_access_token (self st)))), after_reads st 1) /\
  trace (after_reads st 1) = trace st /\
  http_calls (after_reads st 1) = http_calls st.
Proof.
  intros Hmode Hvalid.
  now rewrite (get_headers_oauth_run _ _ Hmode), (get_access_token_valid _ _ Hvalid).
Qed.

End HeadersRuns.

(** ** User lookup and login *)

Section Login.

Variable str_other : pyval -> string.

Lemma get_user_info_Raise (token : pyval) (env : environment) (st st' : state) (e : exn) :
  get_user_info str_other token env st = (Raise e, st') ->
  is_request_exception e = false.
Proof.
  destruct (truthy token) eqn:Htoken.
  - rewrite (get_user_info_with_token_run _ _ _ _ Htoken).
    intros [= H _]. eapply fetch_outcome_Raise; eauto.
  - rewrite (get_user_info_without_token_run _ _ _ _ Htoken).
    destruct (get_access_token env st) as [[service_token|e'] st''] eqn:Hrun.
    + intros [= H _]. eapply fetch_outcome_Raise; eauto.
    + intros [= <- _]. eapply get_access_token_Raise; eauto.
Qed.

(** X8. Called without a token, get_user_info first asks get_access_token
    for the service's token.  If that fails, the exception reaches the
    caller as it is and no request for the user is sent; otherwise the
    one GET that follows carries the service's token. *)
Theorem get_user_info_without_token (token : pyval) (env : environment) (st : state) :
  truthy token = false ->
  (forall e st',
      get_access_token env st = (Raise e, st') ->
      get_user_info str_other token env st = (Raise e, st')) /\
  (forall service_token st',
      get_access_token env st = (Ok service_token, st') ->
      snd (get_user_info str_other token env st) =
        after_call st' (user_info_request (self st) (py_str str_other service_token)) /\
      (forall v, json_body (env_http env (http_calls st')) v ->
                 fst (get_user_info str_other token env st) = Ok v)).
Proof.
  intros Htoken. rewrite (get_user_info_without_token_run _ _ _ _ Htoken).
  split.
  - intros e st' ->. reflexivity.
  - intros service_token st' ->. cbn [fst snd]. split; [reflexivity|].
    intros v Hv. now apply fetch_outcome_json.
Qed.

Lemma authenticate_user_request_error_run (username password : pyval)
    (env : environment) (st : state) (m : string) :
  request_error (env_http env (http_calls st)) = Some m ->
  authenticate_user str_other username password env st =
  (Raise (PyException ("Authentication failed: " ++ m)),
   after_call st (password_request (self st) username password)).
Proof.
  unfold request_error, authenticate_user. unfold bind at 1, get_self.
  run. unfold response_json.
  destruct (env_http env (http_calls st)) as [e|r]; simpl.
  - destruct e; try discriminate. now intros [= <-].
  - destruct (raise_for_status r) as [[]|e] eqn:Hs; simpl.
    + destruct (content r) as [m'|v]; simpl; [|discriminate]. now intros [= <-].
    + destruct (raise_for_status_request_exception _ _ Hs) as (m' & ->).
      now intros [= <-].
Qed.

Lemma authenticate_user_delivered_run (username password : pyval)
    (env : environment) (st : state) (d : list (string * pyval)) :
  delivered (env_http env (http_calls st)) d ->
  authenticate_user str_other username password env st =
  match get_user_info str_other (dict_get d "access_token" PNone) env
          (after_call st (password_request (self st) username password)) with
  | (Ok user_info, st') => (Ok (login_result d user_info), st')
  | (Raise e, st') => (Raise e, st')
  end.
Proof.
  intros (r & Hr & Hs & Hc).
  unfold authenticate_user. unfold bind at 1, get_self.
  unfold try_except, requests_post. unfold bind at 1. unfold http at 1.
  rewrite Hr. unfold bind at 1, lift at 1. rewrite Hs.
  unfold bind at 1, lift at 1, response_json. rewrite Hc.
  unfold bind at 1, lift at 1, py_get at 1. unfold bind at 1.
  fold (dict_get d "access_token" PNone).
  change {| self := self st; clock_reads := clock_reads st;
            http_calls := S (http_calls st);
            trace := (trace st ++
                      [POST (split_head "/api" (api_url (self st)) ++ "/oauth/token")
                         [("grant_type", PStr "password"); ("username", username);
                          ("password", password);
                          ("client_id", opt_str (client_id (self st)));
                          ("client_secret", opt_str (client_secret (self st)))]])%list |}
    with (after_call st (password_request (self st) username password)).
  destruct (get_user_info str_other _ env _) as [[user_info|e] st'] eqn:Hinfo.
  - reflexivity.
  - now rewrite (get_user_info_Raise _ _ _ _ _ Hinfo).
Qed.

(** X9. When the password grant itself fails with a request error,
    authenticate_user raises "Authentication failed: ..." after that one
    request: the user is not looked up, and the token cache of the
    service is untouched. *)
Theorem authenticate_user_grant_failure (username password : pyval)
    (env : environment) (st : state) (m : string) :
  request_error (env_http env (http_calls st)) = Some m ->
  authenticate_user str_other username password env st =
    (Raise (PyException ("Authentication failed: " ++ m)),
     after_call st (password_request (self st) username password)) /\
  self (snd (authenticate_user str_other username password env st)) = self st.
Proof.
  intros Hm. now rewrite (authenticate_user_request_error_run _ _ _ _ _ Hm).
Qed.

(** X10. When the password grant delivers an access token,
    authenticate_user sends two requests, the grant and the user lookup
    with the token just obtained, and never touches the token cache of the
    service nor the clock.  It returns access_token, refresh_token,
    expires_in (None when absent, with no default) and the user; a request
    error of the lookup surfaces as "Failed to get user information: ...",
    not as an authentication failure. *)
Theorem authenticate_user_with_token (username password : pyval)
    (env : environment) (st : state) (d : list (string * pyval)) :
  delivered (env_http env (http_calls st)) d ->
  truthy (dict_get d "access_token" PNone) = true ->
  snd (authenticate_user str_other username password env st) =
    after_call (after_call st (password_request (self st) username password))
               (user_info_request (self st)
                  (py_str str_other (dict_get d "access_token" PNone))) /\
  (forall user_info,
      json_body (env_http env (S (http_calls st))) user_info ->
      fst (authenticate_user str_other username password env st) =
        Ok (login_result d user_info)) /\
  (forall m,
      request_error (env_http env (S (http_calls st))) = Some m ->
      fst (authenticate_user str_other username password env st) =
        Raise (PyException ("Failed to get user information: " ++ m))).
Proof.
  intros Hd Htoken.
  rewrite (authenticate_user_delivered_run _ _ _ _ _ Hd).
  rewrite (get_user_info_with_token_run _ _ _ _ Htoken).
  cbn [http_calls after_call self].
  split; [|split].
  - destruct (fetch_outcome _ _); reflexivity.
  - intros user_info Hv. now rewrite (fetch_outcome_json _ _ _ Hv).
  - intros m Hm. now rewrite (fetch_outcome_request_error _ _ _ Hm).
Qed.

(** X11. When the password grant delivers no usable access token,
    authenticate_user still looks the user up, with the token of the
    service: with a valid cached service token the lookup carries that
    token, and its answer is returned as the user of the login. *)
Theorem authenticate_user_without_token (username password : pyval)
    (env : environment) (st : state) (d : list (string * pyval)) :
  delivered (env_http env (http_calls st)) d ->
  truthy (dict_get d "access_token" PNone) = false ->
  cached_token_valid env st = true ->
  snd (authenticate_user str_other username password env st) =
    after_call (after_reads (after_call st (password_request (self st) username password)) 1)
               (user_info_request (self st)
                  (py_str str_other (_access_token (self st)))) /\
  (forall user_info,
      json_body (env_http env (S (http_calls st))) user_info ->
      fst (authenticate_user str_other username password env st) =
        Ok (login_result d user_info)).
Proof.
  intros Hd Htoken Hvalid.
  rewrite (authenticate_user_delivered_run _ _ _ _ _ Hd).
  rewrite (get_user_info_without_token_run _ _ _ _ Htoken).
  assert (Hvalid' : cached_token_valid env
            (after_call st (password_request (self st) username password)) = true)
    by exact Hvalid.
  rewrite (get_access_token_valid _ _ Hvalid').
  cbn [http_calls after_call after_reads self].
  split.
  - destruct (fetch_outcome _ _); reflexivity.
  - intros user_info Hv. now rewrite (fetch_outcome_json _ _ _ Hv).
Qed.

End Login.

(** ** The lineage requests *)

Section Passthrough.

Variable str_other : pyval -> string.

(** The body shared by [get_lineage], [get_impact_analysis] and
    [get_process_details]: headers first, then one GET. *)
Lemma passthrough_run (target : string) (params : list (string * pyval))
    (prefix : string) (env : environment) (st : state) :
  try_except
    (headers <- get_headers str_other ;;
     response <- requests_get target params headers ;;
     lift (raise_for_status response) ;;;
     lift (response_json response))
    is_request_exception
    (fun e => raise (PyException (prefix ++ exn_str e))) env st =
  match get_headers str_other env st with
  | (Ok headers, st') =>
      (fetch_outcome prefix (env_http env (http_calls st')),
       after_call st' (GET target params headers))
  | (Raise e, st') => (Raise e, st')
  end.
Proof.
  destruct (get_headers str_other env st) as [[headers|e] st'] eqn:Hh.
  - rewrite <- (fetch_run (GET target params headers) prefix env st').
    unfold try_except, bind at 1. rewrite Hh. reflexivity.
  - unfold try_except, bind at 1. rewrite Hh.
    now rewrite (get_headers_Raise _ _ _ _ _ Hh).
Qed.

Lemma get_lineage_run (guid direction depth include_process : pyval)
    (env : environment) (st : state) :
  get_lineage str_other guid direction depth include_process env st =
  match get_headers str_other env st with
  | (Ok headers, st') =>
      (fetch_outcome "Failed to get lineage: " (env_http env (http_calls st')),
       after_call st'
         (GET (api_url (self st) ++ "/lineage")
              [("guid", guid); ("direction", direction); ("depth", depth);
               ("includeProcess", include_process)] headers))
  | (Raise e, st') => (Raise e, st')
  end.
Proof.
  unfold get_lineage. unfold bind at 1, get_self. now rewrite passthrough_run.
Qed.

(** X12. With an API key configured, get_lineage, get_impact_analysis and
    get_process_details each send exactly one request, a GET with the
    API-key headers, and leave the service object and the clock alone.
    Each returns the decoded JSON of a non-error response unchanged and
    raises "Failed to ...: <error>" on a request error. *)
Theorem api_key_mode_single_get (env : environment) (st : state) (key : string)
    (guid direction depth include_process process_guid : pyval) :
  api_key (self st) = Some key ->
  truthy (PStr key) = true ->
  get_lineage str_other guid direction depth include_process env st =
    (fetch_outcome "Failed to get lineage: " (env_http env (http_calls st)),
     after_call st
       (GET (api_url (self st) ++ "/lineage")
            [("guid", guid); ("direction", direction); ("depth", depth);
             ("includeProcess", include_process)] (api_key_headers key))) /\
  get_impact_analysis str_other guid depth env st =
    (fetch_outcome "Failed to get impact analysis: " (env_http env (http_calls st)),
     after_call st
       (GET (api_url (self st) ++ "/lineage/impact")
            [("guid", guid); ("depth", depth)] (api_key_headers key))) /\
  get_process_details str_other process_guid env st =
    (fetch_outcome "Failed to get process details: " (env_http env (http_calls st)),
     after_call st
       (GET (api_url (self st) ++ "/assets/" ++ py_str str_other process_guid)
            [] (api_key_headers key))) /\
  (forall prefix v, json_body (env_http env (http_calls st)) v ->
     fetch_outcome prefix (env_http env (http_calls st)) = Ok v) /\
  (forall prefix m, request_error (env_http env (http_calls st)) = Some m ->
     fetch_outcome prefix (env_http env (http_calls st)) =
     Raise (PyException (prefix ++ m))).
Proof.
  intros Hkey Htruthy.
  pose proof (get_headers_api_key_run str_other env st key Hkey Htruthy) as Hh.
  split; [|split; [|split; [|split]]].
  - now rewrite get_lineage_run, Hh.
  - unfold get_impact_analysis. unfold bind at 1, get_self.
    now rewrite passthrough_run, Hh.
  - unfold get_process_details. unfold bind at 1, get_self.
    now rewrite passthrough_run, Hh.
  - intros prefix v. apply fetch_outcome_json.
  - intros prefix m. apply fetch_outcome_request_error.
Qed.

(** X13. Without an API key, when no token can be obtained the lineage
    request is never sent: get_lineage raises what get_access_token
    raised, as it is (it is not rewrapped as "Failed to get lineage"), and
    the only requests made are the token requests. *)
Theorem get_lineage_without_token (guid direction depth include_process : pyval)
    (env : environment) (st st' : state) (e : exn) :
  api_key_configured (self st) = false ->
  get_access_token env st = (Raise e, st') ->
  get_lineage str_other guid direction depth include_process env st = (Raise e, st') /\
  get_lineage_graph str_other guid direction depth include_process env st =
    (Raise e, st').
Proof.
  intros Hmode Hfail.
  assert (Hrun : get_lineage str_other guid direction depth include_process env st =
                 (Raise e, st')).
  { now rewrite get_lineage_run, (get_headers_oauth_run _ _ _ Hmode), Hfail. }
  split; [exact Hrun|].
  unfold get_lineage_graph, bind. now rewrite Hrun.
Qed.

(** X14. get_lineage_graph is get_lineage followed by the projection,
    which is outside every handler: once the vendor has delivered a JSON
    value, the result is the projection of that value, so an error of the
    projection (a KeyError for a missing guid, say) reaches the caller
    unwrapped, after the request has been made.  A request error stops
    the call before the projection with "Failed to get lineage: ...". *)
Theorem get_lineage_graph_after_request (guid direction depth include_process : pyval)
    (env : environment) (st st' : state) (headers : list (string * string)) :
  get_headers str_other env st = (Ok headers, st') ->
  snd (get_lineage_graph str_other guid direction depth include_process env st) =
    after_call st'
      (GET (api_url (self st) ++ "/lineage")
           [("guid", guid); ("direction", direction); ("depth", depth);
            ("includeProcess", include_process)] headers) /\
  (forall payload,
      json_body (env_http env (http_calls st')) payload ->
      fst (get_lineage_graph str_other guid direction depth include_process env st) =
        lineage_graph str_other payload) /\
  (forall m,
      request_error (env_http env (http_calls st')) = Some m ->
      fst (get_lineage_graph str_other guid direction depth include_process env st) =
        Raise (PyException ("Failed to get lineage: " ++ m))).
Proof.
  intros Hh. unfold get_lineage_graph, bind. rewrite get_lineage_run, Hh.
  split; [|split].
  - destruct (fetch_outcome _ _); reflexivity.
  - intros payload Hp. now rewrite (fetch_outcome_json _ _ _ Hp).
  - intros m Hm. now rewrite (fetch_outcome_request_error _ _ _ Hm).
Qed.

End Passthrough.

(** ** The authentication views *)

Lemma prefix_app (p s : string) :
  String.prefix p s = true -> exists t, s = p ++ t.
Proof.
  revert s; induction p as [|a p IH]; intros s.
  - intros _. now exists s.
  - destruct s as [|b s]; simpl; [discriminate|].
    destruct (ascii_dec a b) as [->|]; [|discriminate].
    intros H. destruct (IH _ H) as (t & ->). now exists t.
Qed.

Lemma split_char_cons (c : ascii) (s : string) :
  exists piece rest, split_char c s = piece :: rest.
Proof.
  induction s as [|a s (piece & rest & IH)]; simpl; eauto.
  destruct (Ascii.eqb a c); eauto. rewrite IH; eauto.
Qed.

Lemma split_char_head (c : ascii) (s : string) :
  hd EmptyString (split_char c s) = split_head (String c EmptyString) s.
Proof.
  induction s as [|a s IH]; [reflexivity|].
  unfold split_head; fold split_head. simpl split_char.
  destruct (Ascii.eqb_spec a c) as [->|Hne].
  - simpl. destruct (ascii_dec c c) as [_|Hcc]; [|now elim Hcc].
    now destruct s.
  - simpl String.prefix. destruct (ascii_dec c a) as [Heq|_]; [now elim Hne|].
    destruct (split_char_cons c s) as (piece & rest & Hs).
    rewrite Hs in *. simpl in *. now rewrite IH.
Qed.

Lemma split_char_bearer (t : string) :
  split_char " " ("Bearer " ++ t) = "Bearer" :: split_char " " t.
Proof.
  simpl. destruct (split_char_cons " " t) as (piece & rest & ->). reflexivity.
Qed.

(** The token of a header "Bearer <t>" is [t] up to its first space. *)
Lemma bearer_token_Bearer (t : string) :
  bearer_token (Some ("Bearer " ++ t)) = split_head " " t.
Proof.
  unfold bearer_token.
  assert (Hp : String.prefix "Bearer " ("Bearer " ++ t) = true)
    by (simpl; now destruct t).
  rewrite Hp.
  rewrite split_char_bearer. simpl nth.
  destruct (split_char_cons " " t) as (piece & rest & Hs).
  rewrite <- split_char_head, Hs. reflexivity.
Qed.

Section Views.

Variable str_other : pyval -> string.
Variable str_builtin : exn -> string.

Lemma token_required_run (f : pyval -> M flask_response) (authorization : option string)
    (env : environment) (st : state) :
  api_auth.token_required str_other str_builtin f authorization env st =
  if String.eqb (bearer_token authorization) EmptyString then
    (Ok missing_token_response, st)
  else
    try_except
      (valid <- validate_token str_other (PStr (bearer_token authorization)) ;;
       (if negb valid then raise (PyException "Invalid token") else ret tt) ;;;
       user_info <- get_user_info str_other (PStr (bearer_token authorization)) ;;
       f user_info)
      (fun _ => true)
      (fun e => ret (invalid_token_response (str_exception str_builtin e)))
      env st.
Proof.
  unfold api_auth.token_required, bearer_token.
  destruct authorization as [auth_header|]; [|reflexivity].
  destruct (String.prefix "Bearer " auth_header) eqn:Hp; [|reflexivity].
  destruct (prefix_app _ _ Hp) as (t & ->).
  rewrite split_char_bearer.
  destruct (split_char_cons " " t) as (piece & rest & ->).
  unfold bind at 1, ret at 1. simpl nth.
  change (truthy (PStr piece)) with (negb (String.eqb piece EmptyString)).
  destruct (String.eqb piece EmptyString); reflexivity.
Qed.

(** X15. A request without an Authorization header, with one that does
    not start with "Bearer ", or with an empty token after "Bearer " is
    answered 401 "Token is missing" at once: no request is sent to the
    vendor, nothing changes, and the view is not run. *)
Theorem token_required_missing_token (f : pyval -> M flask_response)
    (authorization : option string) (env : environment) (st : state) :
  (bearer_token authorization = EmptyString ->
   api_auth.token_required str_other str_builtin f authorization env st =
     (Ok missing_token_response, st)) /\
  bearer_token None = EmptyString /\
  (forall auth_header,
      String.prefix "Bearer " auth_header = false ->
      bearer_token (Some auth_header) = EmptyString) /\
  (forall t, bearer_token (Some ("Bearer " ++ t)) = split_head " " t).
Proof.
  split; [|split; [|split]].
  - intros H. now rewrite token_required_run, H.
  - reflexivity.
  - intros auth_header H. unfold bearer_token. now rewrite H.
  - apply bearer_token_Bearer.
Qed.

Lemma validate_token_run (token : pyval) (env : environment) (st : state) :
  validate_token str_other token env st =
  (Ok (match env_http env (http_calls st) with
       | Returned r => status_code r =? 200
       | Raised _ => false
       end),
   after_call st (validate_request (self st) (py_str str_other token))).
Proof.
  unfold validate_token. run.
  destruct (env_http env (http_calls st)); reflexivity.
Qed.

(** The decorated view once a token has been taken from the header. *)
Lemma token_required_checks (f : pyval -> M flask_response)
    (authorization : option string) (env : environment) (st : state) :
  bearer_token authorization <> EmptyString ->
  let token := bearer_token authorization in
  let st1 := after_call st (validate_request (self st) token) in
  let st2 := after_call st1 (user_info_request (self st) token) in
  api_auth.token_required str_other str_builtin f authorization env st =
  match env_http env (http_calls st) with
  | Returned r =>
      if status_code r =? 200 then
        match fetch_outcome "Failed to get user information: "
                            (env_http env (S (http_calls st))) with
        | Ok user_info =>
            match f user_info env st2 with
            | (Ok response, st') => (Ok response, st')
            | (Raise e, st') =>
                (Ok (invalid_token_response (str_exception str_builtin e)), st')
            end
        | Raise e => (Ok (invalid_token_response (str_exception str_builtin e)), st2)
        end
      else (Ok (invalid_token_response "Invalid token"), st1)
  | Raised _ => (Ok (invalid_token_response "Invalid token"), st1)
  end.
Proof.
  intros Htoken. cbv zeta. rewrite token_required_run.
  destruct (String.eqb_spec (bearer_token authorization) EmptyString) as [H|_];
    [now elim Htoken|].
  assert (Htruthy : truthy (PStr (bearer_token authorization)) = true).
  { simpl. destruct (String.eqb_spec (bearer_token authorization) EmptyString);
      [now elim Htoken | reflexivity]. }
  unfold try_except, bind at 1. rewrite validate_token_run.
  simpl py_str.
  destruct (env_http env (http_calls st)) as [e|r] eqn:Ho; [reflexivity|].
  destruct (status_code r =? 200); [|reflexivity].
  cbn [negb]. unfold bind at 1, ret at 1. unfold bind at 1.
  rewrite (get_user_info_with_token_run _ _ _ _ Htruthy).
  simpl py_str. cbn [http_calls after_call self].
  destruct (fetch_outcome _ _) as [user_info|e]; [|reflexivity].
  destruct (f user_info env _) as [[response|e] st']; reflexivity.
Qed.

End Views.

Section ViewTheorems.

Variable str_other : pyval -> string.
Variable str_builtin : exn -> string.

(** X16. A view behind token_required always answers, whatever the view
    does, and it answers with a status other than 401 only if the vendor
    answered the validation request with status 200 and then delivered
    the user: the view has run, on exactly that user, after these two
    requests. *)
Theorem token_required_guards_view (f : pyval -> M flask_response)
    (authorization : option string) (env : environment) (st : state) :
  (exists response st',
      api_auth.token_required str_other str_builtin f authorization env st =
      (Ok response, st')) /\
  (forall body status st',
      api_auth.token_required str_other str_builtin f authorization env st =
      (Ok (body, status), st') ->
      status <> 401 ->
      exists r user_info,
        bearer_token authorization <> EmptyString /\
        env_http env (http_calls st) = Returned r /\
        status_code r = 200 /\
        json_body (env_http env (S (http_calls st))) user_info /\
        f user_info env
          (after_call
             (after_call st (validate_request (self st) (bearer_token authorization)))
             (user_info_request (self st) (bearer_token authorization))) =
        (Ok (body, status), st')).
Proof.
  destruct (String.eqb_spec (bearer_token authorization) EmptyString) as [Hnone|Htoken].
  - rewrite token_required_run, Hnone. simpl. split; [eauto|].
    intros body status st' [= <- <- <-] H. now elim H.
  - rewrite (token_required_checks _ _ _ _ _ _ Htoken).
    destruct (env_http env (http_calls st)) as [e|r] eqn:Ho.
    + split; [eauto|]. intros body status st' [= <- <- <-] H. now elim H.
    + destruct (status_code r =? 200) eqn:H200.
      * destruct (fetch_outcome _ _) as [user_info|e] eqn:Hinfo.
        -- destruct (f user_info env _) as [[response|e] st''] eqn:Hf.
           ++ split; [eauto|]. intros body status st' [= -> <-] _.
              exists r, user_info. repeat split; auto.
              ** now apply Z.eqb_eq.
              ** eapply fetch_outcome_Ok; eauto.
           ++ split; [eauto|]. intros body status st' [= <- <- <-] H. now elim H.
        -- split; [eauto|]. intros body status st' [= <- <- <-] H. now elim H.
      * split; [eauto|]. intros body status st' [= <- <- <-] H. now elim H.
Qed.

(** X17. Once a token has been taken from the header, a validation
    request that raises or returns with a status other than 200 is
    answered 401 "Invalid token" after that single request; a request
    error of the user lookup that follows a status 200 is answered 401 as
    well, with the message of the lookup.  The view is not run in either
    case. *)
Theorem token_required_rejects (f : pyval -> M flask_response)
    (authorization : option string) (env : environment) (st : state) :
  bearer_token authorization <> EmptyString ->
  let token := bearer_token authorization in
  let st1 := after_call st (validate_request (self st) token) in
  let st2 := after_call st1 (user_info_request (self st) token) in
  ((forall r, env_http env (http_calls st) = Returned r -> status_code r <> 200) ->
   api_auth.token_required str_other str_builtin f authorization env st =
     (Ok (invalid_token_response "Invalid token"), st1)) /\
  (forall r m,
      env_http env (http_calls st) = Returned r -> status_code r = 200 ->
      request_error (env_http env (S (http_calls st))) = Some m ->
      api_auth.token_required str_other str_builtin f authorization env st =
        (Ok (invalid_token_response ("Failed to get user information: " ++ m)), st2)).
Proof.
  intros Htoken. cbv zeta.
  rewrite (token_required_checks _ _ _ _ _ _ Htoken). split.
  - intros Hnot200.
    destruct (env_http env (http_calls st)) as [e|r]; [reflexivity|].
    destruct (Z.eqb_spec (status_code r) 200) as [H200|_]; [|reflexivity].
    now elim (Hnot200 r eq_refl).
  - intros r m -> H200 Hm. rewrite H200. simpl Z.eqb.
    now rewrite (fetch_outcome_request_error _ _ _ Hm).
Qed.

(** X18. The view runs inside the handler of the decorator: when the
    token is accepted and the view itself raises, the answer is 401
    "Invalid token" with the message of that exception. *)
Theorem token_required_view_exception (f : pyval -> M flask_response)
    (authorization : option string) (env : environment) (st st' : state)
    (r : response) (user_info : pyval) (e : exn) :
  bearer_token authorization <> EmptyString ->
  env_http env (http_calls st) = Returned r ->
  status_code r = 200 ->
  json_body (env_http env (S (http_calls st))) user_info ->
  f user_info env
    (after_call (after_call st (validate_request (self st) (bearer_token authorization)))
                (user_info_request (self st) (bearer_token authorization))) =
    (Raise e, st') ->
  api_auth.token_required str_other str_builtin f authorization env st =
    (Ok (invalid_token_response (str_exception str_builtin e)), st').
Proof.
  intros Htoken Ho H200 Hinfo Hf.
  rewrite (token_required_checks _ _ _ _ _ _ Htoken), Ho, H200. simpl Z.eqb.
  now rewrite (fetch_outcome_json _ _ _ Hinfo), Hf.
Qed.

(** X19. The refresh view can never succeed: AuthService has no
    refresh_token method, so a body that carries a refresh_token is
    answered 401 REFRESH_FAILED, and every other body 400 or 401.  The
    view sends no request and changes nothing. *)
Theorem refresh_view_never_succeeds (get_json : result pyval)
    (env : environment) (st : state) :
  (exists body status,
      api_auth.refresh_token str_builtin get_json env st = (Ok (body, status), st) /\
      (status = 400 \/ status = 401)) /\
  (forall d token,
      get_json = Ok (PDict d) ->
      dict_lookup "refresh_token" d = Some token ->
      api_auth.refresh_token str_builtin get_json env st =
        (Ok (error_body "REFRESH_FAILED" "Token refresh failed"
                        (str_builtin AttributeError), 401), st)).
Proof.
  unfold api_auth.refresh_token, try_except, bind, lift, ret, raise.
  split.
  - destruct get_json as [data|e]; [|eauto 6].
    destruct (truthy data); simpl; [|eauto 6].
    destruct (py_contains "refresh_token" data) as [[|]|e]; simpl; eauto 6.
    destruct (py_getitem data "refresh_token"); eauto 6.
  - intros d token -> Hlookup. simpl. rewrite Hlookup.
    destruct d; [discriminate|]. reflexivity.
Qed.

(** X20. The validate view never raises and never answers 401.  For a
    JSON object with a token it sends one GET to the current-user
    endpoint with that token and answers 200 with valid true exactly when
    that GET returned with status 200. *)
Theorem validate_view (get_json : result pyval) (env : environment) (st : state) :
  (exists body status st',
      api_auth.validate_token str_other str_builtin get_json env st =
        (Ok (body, status), st') /\
      (status = 200 \/ status = 400 \/ status = 500)) /\
  (forall d token,
      get_json = Ok (PDict d) ->
      dict_lookup "token" d = Some token ->
      api_auth.validate_token str_other str_builtin get_json env st =
        (Ok (PDict [("valid",
                     PBool (match env_http env (http_calls st) with
                            | Returned r => status_code r =? 200
                            | Raised _ => false
                            end))], 200),
         after_call st (validate_request (self st) (py_str str_other token)))).
Proof.
  unfold api_auth.validate_token, try_except, bind, lift, ret, raise.
  split.
  - destruct get_json as [data|e]; [|eauto 8].
    destruct (truthy data); simpl; [|eauto 8].
    destruct (py_contains "token" data) as [[|]|e]; simpl; eauto 8.
    destruct (py_getitem data "token"); eauto 8.
    rewrite validate_token_run. eauto 8.
  - intros d token -> Hlookup. simpl. rewrite Hlookup.
    destruct d; [discriminate|]. simpl. now rewrite validate_token_run.
Qed.

(** X21. The login view never raises and answers 200, 400 or 401.  For a
    JSON object with username and password it answers what
    authenticate_user does: 200 with its result, and 401
    AUTHENTICATION_FAILED with the message of whatever it raised, be it
    the grant or the user lookup that failed.  A 400 is decided before
    any request: nothing has changed. *)
Theorem login_view (get_json : result pyval) (env : environment) (st : state) :
  (exists body status st',
      api_auth.login str_other str_builtin get_json env st = (Ok (body, status), st') /\
      (status = 200 \/ status = 400 /\ st' = st \/ status = 401)) /\
  (forall d username password,
      get_json = Ok (PDict d) ->
      dict_lookup "username" d = Some username ->
      dict_lookup "password" d = Some password ->
      api_auth.login str_other str_builtin get_json env st =
        match authenticate_user str_other username password env st with
        | (Ok result, st') => (Ok (result, 200), st')
        | (Raise e, st') =>
            (Ok (error_body "AUTHENTICATION_FAILED" "Authentication failed"
                            (str_exception str_builtin e), 401), st')
        end).
Proof.
  unfold api_auth.login, try_except, bind, lift, ret, raise.
  split.
  - destruct get_json as [data|e]; [|eauto 10].
    destruct (truthy data); simpl; [|eauto 10].
    destruct (py_contains "username" data) as [[|]|e]; simpl; eauto 10.
    destruct (py_contains "password" data) as [[|]|e]; simpl; eauto 10.
    destruct (py_getitem data "username"); eauto 10.
    destruct (py_getitem data "password"); eauto 10.
    destruct (authenticate_user _ _ _ _ _) as [[result|e] st']; eauto 10.
  - intros d username password -> Hu Hp. simpl. rewrite Hu, Hp.
    destruct d; [discriminate|]. simpl.
    destruct (authenticate_user _ _ _ _ _) as [[result|e] st']; reflexivity.
Qed.

End ViewTheorems.

(** ** More on the projection and on the lineage payloads *)

Lemma str_app_assoc (a b c : string) : ((a ++ b) ++ c = a ++ (b ++ c))%string.
Proof.
  induction a as [|x a IH]; simpl; [reflexivity | now rewrite IH].
Qed.

Lemma str_app_not_self (a s : string) : (a ++ s)%string = a -> s = EmptyString.
Proof.
  induction a as [|x a IH]; simpl; [auto|]. intros [= H]. auto.
Qed.

Lemma append_each_app {A} (make : pyval -> result A) (l1 l2 : list pyval) :
  forall acc,
    append_each make acc (l1 ++ l2) =
    rbind (append_each make acc l1) (fun acc' => append_each make acc' l2).
Proof.
  induction l1 as [|x l1 IH]; intros acc; simpl; [reflexivity|].
  destruct (make x) as [y|e]; simpl; [apply IH | reflexivity].
Qed.

Section Projection.

Variable str_other : pyval -> string.

(** X22. The projection reads nothing of the payload but its entities and
    relations keys: two mappings that agree on these two keys have the
    same projection, whatever else they hold. *)
Theorem lineage_graph_reads_two_keys (d d' : list (string * pyval)) :
  dict_lookup "entities" d = dict_lookup "entities" d' ->
  dict_lookup "relations" d = dict_lookup "relations" d' ->
  lineage_graph str_other (PDict d) = lineage_graph str_other (PDict d').
Proof.
  intros He Hr. unfold lineage_graph. simpl. now rewrite He, Hr.
Qed.

(** X23. The projection stops at the first entity it cannot project and
    raises that entity's error: the entities before it are lost with the
    whole graph, and the relations are not looked at. *)
Theorem lineage_graph_first_error (d : list (string * pyval))
    (before after : list pyval) (bad : pyval) (e : exn) :
  dict_lookup "entities" d = Some (PList (before ++ bad :: after)) ->
  forallb complete_entity before = true ->
  make_node bad = Raise e ->
  lineage_graph str_other (PDict d) = Raise e.
Proof.
  intros He Hbefore Hbad. unfold lineage_graph. simpl. rewrite He. simpl.
  rewrite append_each_app.
  destruct (append_each_total make_node before
              (forallb_total _ _ _ make_node_total Hbefore) []) as (ns & ->).
  simpl. now rewrite Hbad.
Qed.

(** X24. A payload that is no mapping is not refused as such: null, a
    boolean and a number raise TypeError at the membership test, while a
    JSON list is searched for the two key names and, holding neither,
    projects to the empty graph. *)
Theorem lineage_graph_non_mapping :
  lineage_graph str_other PNone = Raise TypeError /\
  (forall b, lineage_graph str_other (PBool b) = Raise TypeError) /\
  (forall n, lineage_graph str_other (PInt n) = Raise TypeError) /\
  (forall l,
      py_contains "entities" (PList l) = Ok false ->
      py_contains "relations" (PList l) = Ok false ->
      lineage_graph str_other (PList l) = Ok {| nodes := []; edges := [] |}) /\
  (forall l,
      py_contains "entities" (PList l) = Ok true ->
      lineage_graph str_other (PList l) = Raise TypeError).
Proof.
  repeat split.
  - intros l He Hr. unfold lineage_graph. now rewrite He, Hr.
  - intros l He. unfold lineage_graph. now rewrite He.
Qed.

(** X25. Edge ids do not identify relations.  The two guids are joined
    with "_" and nothing else, so the relation from a_b to c and the
    relation from a to b_c get the same id; both edges are kept, in
    order, with equal ids. *)
Theorem edge_ids_collide (a b c : string) (d : list (string * pyval)) :
  let r1 := PDict [("fromEntityGuid", PStr (a ++ "_" ++ b)); ("toEntityGuid", PStr c)] in
  let r2 := PDict [("fromEntityGuid", PStr a); ("toEntityGuid", PStr (b ++ "_" ++ c))] in
  dict_lookup "entities" d = None ->
  dict_lookup "relations" d = Some (PList [r1; r2]) ->
  exists e1 e2,
    lineage_graph str_other (PDict d) = Ok {| nodes := []; edges := [e1; e2] |} /\
    edge_data e1 = r1 /\ edge_data e2 = r2 /\
    edge_source e1 <> edge_source e2 /\
    edge_id e1 = edge_id e2.
Proof.
  intros r1 r2 He Hr. unfold lineage_graph. simpl. rewrite He, Hr. simpl.
  eexists; eexists. split; [reflexivity|]. simpl. repeat split.
  - intros [= H]. apply str_app_not_self in H. discriminate.
  - now rewrite str_app_assoc.
Qed.

(** X26. What create_lineage posts: fromEntityGuid and toEntityGuid
    always; a process_guid, when given, is sent alone as processGuid and
    any process name or type is ignored; without it a new process is
    described only when both process_name and process_type are given, and
    a name without a type (or a type without a name) is dropped without
    notice.  The payload never holds both processGuid and process. *)
Theorem create_lineage_payload_cases
    (from_guid to_guid process_guid process_name process_type : pyval) :
  let payload :=
    create_lineage_payload str_other from_guid to_guid process_guid process_name
                           process_type in
  let direct := [("fromEntityGuid", from_guid); ("toEntityGuid", to_guid)] in
  (truthy process_guid = true ->
   payload = PDict (direct ++ [("processGuid", process_guid)])%list) /\
  (truthy process_guid = false ->
   truthy process_name && truthy process_type = false ->
   payload = PDict direct) /\
  (exists rest,
      payload = PDict (direct ++ rest)%list /\
      (has_key "processGuid" rest && has_key "process" rest = false) /\
      (has_key "process" rest = true <->
       truthy process_guid = false /\ truthy process_name = true /\
       truthy process_type = true)).
Proof.
  cbv zeta. unfold create_lineage_payload.
  destruct (truthy process_guid); [|destruct (truthy process_name), (truthy process_type)];
    simpl; (split; [|split]); try discriminate; try reflexivity;
    try (intros; reflexivity);
    eexists; (split; [reflexivity|]); simpl; (split; [reflexivity|]);
    split; try discriminate; intuition discriminate.
Qed.

End Projection.

(** ** The further theorems at work on concrete runs *)

Lemma get_user_info_with_token_example :
  fst (get_user_info str_scalar (PStr "T1") refusing_env example_state) =
  Raise (PyException
    "Failed to get user information: 401 Client Error: Unauthorized for url: https://tenant.atlan.com/oauth/token").
Proof.
  apply (proj2 (proj2 (get_user_info_with_token str_scalar (PStr "T1") refusing_env
                         example_state eq_refl))).
  reflexivity.
Defined.

Lemma get_access_token_footprint_example :
  configuration (self (snd (get_access_token rejecting_env stale_state))) =
  configuration (self stale_state).
Proof.
  exact (proj1 (proj2 (get_access_token_footprint rejecting_env stale_state))).
Defined.

Lemma stale_without_refresh_token_mints_example :
  trace (snd (get_access_token example_env example_state)) =
  [mint_request (self example_state)].
Proof.
  apply (proj1 (proj2 (stale_without_refresh_token_mints example_env example_state
                         eq_refl eq_refl))).
Defined.

Lemma successful_refresh_replaces_tokens_example :
  fst (get_access_token example_env stale_state) = Ok (PStr "T1") /\
  credentials (self (snd (get_access_token example_env stale_state))) =
    (PStr "T1", PStr "R1", Some 62000000).
Proof.
  destruct (successful_refresh_replaces_tokens example_env stale_state
              [("access_token", PStr "T1"); ("refresh_token", PStr "R1");
               ("expires_in", PInt 60)] 62000000 eq_refl eq_refl)
    as (Htoken & Hcred & _).
  - eexists. repeat split; reflexivity.
  - reflexivity.
  - exact (conj Htoken Hcred).
Defined.

Lemma unusable_expires_in_tears_cache_example :
  fst (_get_new_access_token malformed_env stale_state) = Raise TypeError /\
  credentials (self (snd (_get_new_access_token malformed_env stale_state))) =
    (PStr "T2", PStr "R2", Some 500000).
Proof.
  destruct (unusable_expires_in_tears_cache malformed_env stale_state
              [("access_token", PStr "T2"); ("refresh_token", PStr "R2");
               ("expires_in", PStr "3600")] TypeError)
    as (Hraise & _ & Hcred & _).
  - eexists. repeat split; reflexivity.
  - reflexivity.
  - exact (conj Hraise Hcred).
Defined.

Lemma mint_without_access_token_example :
  fst (get_access_token tokenless_env example_state) = Ok PNone /\
  (http_calls (snd (get_access_token tokenless_env example_state)) + 3 <=
   http_calls (state_after_calls 3 tokenless_env
                 (snd (get_access_token tokenless_env example_state))))%nat.
Proof.
  destruct (mint_without_access_token tokenless_env example_state
              [("token_type", PStr "bearer")] 3600000000 eq_refl eq_refl)
    as (Hnone & _ & _ & Hlater).
  - eexists. repeat split; reflexivity.
  - reflexivity.
  - reflexivity.
  - split; [exact Hnone|].
    apply (Hlater tokenless_env 3%nat).
    intros k d (r & [= <-] & _ & [= <-]). reflexivity.
Defined.

Lemma get_headers_cache_hit_example :
  get_headers str_scalar refusing_env minted_state =
  (Ok (bearer_headers "T1"), after_reads minted_state 1).
Proof.
  apply (proj1 (get_headers_cache_hit str_scalar refusing_env minted_state
                  eq_refl eq_refl)).
Defined.

Lemma get_user_info_without_token_example :
  get_user_info str_scalar PNone refusing_env example_state =
  get_access_token refusing_env example_state.
Proof.
  refine (proj1 (get_user_info_without_token str_scalar PNone refusing_env example_state
                   eq_refl) _ _ _).
  reflexivity.
Defined.

Lemma authenticate_user_grant_failure_example :
  self (snd (authenticate_user str_scalar (PStr "ada") (PStr "pw") refusing_env
               minted_state)) = self minted_state.
Proof.
  refine (proj2 (authenticate_user_grant_failure str_scalar (PStr "ada") (PStr "pw")
                   refusing_env minted_state _ _)).
  reflexivity.
Defined.

Lemma authenticate_user_with_token_example :
  snd (authenticate_user str_scalar (PStr "ada") (PStr "pw") example_env example_state) =
  after_call (after_call example_state
                (password_request (self example_state) (PStr "ada") (PStr "pw")))
             (user_info_request (self example_state) "T1").
Proof.
  refine (proj1 (authenticate_user_with_token str_scalar (PStr "ada") (PStr "pw")
                   example_env example_state
                   [("access_token", PStr "T1"); ("refresh_token", PStr "R1");
                    ("expires_in", PInt 60)] _ eq_refl)).
  eexists. repeat split; reflexivity.
Defined.

Lemma authenticate_user_without_token_example :
  snd (authenticate_user str_scalar (PStr "ada") (PStr "pw") tokenless_env minted_state) =
  after_call (after_reads (after_call minted_state
                (password_request (self minted_state) (PStr "ada") (PStr "pw"))) 1)
             (user_info_request (self minted_state) "T1").
Proof.
  refine (proj1 (authenticate_user_without_token str_scalar (PStr "ada") (PStr "pw")
                   tokenless_env minted_state [("token_type", PStr "bearer")]
                   _ eq_refl eq_refl)).
  eexists. repeat split; reflexivity.
Defined.

Lemma api_key_mode_single_get_example :
  get_lineage str_scalar (PStr "a1") (PStr "BOTH") (PInt 3) (PBool true)
              refusing_env api_key_state =
  (Raise (PyException
     "Failed to get lineage: 401 Client Error: Unauthorized for url: https://tenant.atlan.com/oauth/token"),
   after_call api_key_state
     (GET "https://tenant.atlan.com/api/meta/lineage"
          [("guid", PStr "a1"); ("direction", PStr "BOTH"); ("depth", PInt 3);
           ("includeProcess", PBool true)] (api_key_headers "key-123"))).
Proof.
  exact (proj1 (api_key_mode_single_get str_scalar refusing_env api_key_state "key-123"
                  (PStr "a1") (PStr "BOTH") (PInt 3) (PBool true) PNone eq_refl eq_refl)).
Defined.

Lemma get_lineage_without_token_example :
  fst (get_lineage str_scalar (PStr "a1") (PStr "BOTH") (PInt 3) (PBool true)
                   refusing_env example_state) =
  Raise (PyException
    "Authentication failed: 401 Client Error: Unauthorized for url: https://tenant.atlan.com/oauth/token").
Proof.
  rewrite (proj1 (get_lineage_without_token str_scalar (PStr "a1") (PStr "BOTH") (PInt 3)
                    (PBool true) refusing_env example_state
                    (snd (get_access_token refusing_env example_state))
                    (PyException
                       "Authentication failed: 401 Client Error: Unauthorized for url: https://tenant.atlan.com/oauth/token")
                    eq_refl eq_refl)).
  reflexivity.
Defined.

Lemma get_lineage_graph_after_request_example :
  fst (get_lineage_graph str_scalar (PStr "a1") (PStr "BOTH") (PInt 3) (PBool true)
                         lineage_env api_key_state) = Ok example_graph.
Proof.
  rewrite (proj1 (proj2 (get_lineage_graph_after_request str_scalar (PStr "a1")
                           (PStr "BOTH") (PInt 3) (PBool true) lineage_env api_key_state
                           api_key_state (api_key_headers "key-123") eq_refl))
                 example_payload).
  - reflexivity.
  - eexists. repeat split; reflexivity.
Defined.

Lemma token_required_missing_token_example :
  api_auth.logout str_scalar exn_str (Some "Basic dXNlcjpwdw==") example_env example_state =
  (Ok missing_token_response, example_state).
Proof.
  apply (proj1 (token_required_missing_token str_scalar exn_str
                  (fun _ => ret (logout_body, 200)) (Some "Basic dXNlcjpwdw==")
                  example_env example_state)).
  reflexivity.
Defined.

Lemma token_required_guards_view_example :
  exists r user_info,
    bearer_token (Some "Bearer T1") <> EmptyString /\
    env_http example_env (http_calls example_state) = Returned r /\
    status_code r = 200 /\
    json_body (env_http example_env (S (http_calls example_state))) user_info /\
    ret (logout_body, 200) example_env
      (after_call
         (after_call example_state
            (validate_request (self example_state) (bearer_token (Some "Bearer T1"))))
         (user_info_request (self example_state) (bearer_token (Some "Bearer T1")))) =
    (Ok (logout_body, 200),
     snd (api_auth.logout str_scalar exn_str (Some "Bearer T1") example_env example_state)).
Proof.
  apply (proj2 (token_required_guards_view str_scalar exn_str
                  (fun _ => ret (logout_body, 200)) (Some "Bearer T1")
                  example_env example_state)).
  - reflexivity.
  - discriminate.
Defined.

Lemma token_required_rejects_example :
  api_auth.logout str_scalar exn_str (Some "Bearer T1") refusing_env example_state =
  (Ok (invalid_token_response "Invalid token"),
   after_call example_state (validate_request (self example_state) "T1")).
Proof.
  refine (proj1 (token_required_rejects str_scalar exn_str
                   (fun _ => ret (logout_body, 200)) (Some "Bearer T1")
                   refusing_env example_state _) _).
  - discriminate.
  - intros r [= <-]. discriminate.
Defined.

Lemma token_required_view_exception_example :
  fst (api_auth.token_required str_scalar exn_str raising_view (Some "Bearer T1")
         example_env example_state) =
  Ok (invalid_token_response "TypeError").
Proof.
  rewrite (token_required_view_exception str_scalar exn_str raising_view
             (Some "Bearer T1") example_env example_state
             (after_call
                (after_call example_state (validate_request (self example_state) "T1"))
                (user_info_request (self example_state) "T1"))
             {| status_code := 200; reason := "OK";
                url := "https://tenant.atlan.com/oauth/token";
                content := Json (PDict [("access_token", PStr "T1");
                                        ("refresh_token", PStr "R1");
                                        ("expires_in", PInt 60)]) |}
             (PDict [("access_token", PStr "T1"); ("refresh_token", PStr "R1");
                     ("expires_in", PInt 60)])
             TypeError).
  - reflexivity.
  - discriminate.
  - reflexivity.
  - reflexivity.
  - eexists. repeat split; reflexivity.
  - reflexivity.
Defined.

Lemma refresh_view_never_succeeds_example :
  api_auth.refresh_token exn_str (Ok (PDict [("refresh_token", PStr "R1")]))
                         example_env minted_state =
  (Ok (error_body "REFRESH_FAILED" "Token refresh failed" "AttributeError", 401),
   minted_state).
Proof.
  apply (proj2 (refresh_view_never_succeeds exn_str
                  (Ok (PDict [("refresh_token", PStr "R1")])) example_env minted_state)
               [("refresh_token", PStr "R1")] (PStr "R1")); reflexivity.
Defined.

Lemma validate_view_example :
  api_auth.validate_token str_scalar exn_str (Ok (PDict [("token", PStr "T1")]))
                          refusing_env example_state =
  (Ok (PDict [("valid", PBool false)], 200),
   after_call example_state (validate_request (self example_state) "T1")).
Proof.
  apply (proj2 (validate_view str_scalar exn_str (Ok (PDict [("token", PStr "T1")]))
                  refusing_env example_state)
               [("token", PStr "T1")] (PStr "T1")); reflexivity.
Defined.

Lemma login_view_example :
  fst (api_auth.login str_scalar exn_str
         (Ok (PDict [("username", PStr "ada"); ("password", PStr "pw")]))
         refusing_env example_state) =
  Ok (error_body "AUTHENTICATION_FAILED" "Authentication failed"
        "Authentication failed: 401 Client Error: Unauthorized for url: https://tenant.atlan.com/oauth/token",
      401).
Proof.
  rewrite (proj2 (login_view str_scalar exn_str
                    (Ok (PDict [("username", PStr "ada"); ("password", PStr "pw")]))
                    refusing_env example_state)
                 [("username", PStr "ada"); ("password", PStr "pw")]
                 (PStr "ada") (PStr "pw") eq_refl eq_refl eq_refl).
  reflexivity.
Defined.

Lemma lineage_graph_reads_two_keys_example :
  lineage_graph str_scalar
    (PDict [("entities", PList [example_entity]); ("relations", PList [example_relation])]) =
  lineage_graph str_scalar
    (PDict [("searchParameters", PDict []); ("relations", PList [example_relation]);
            ("entities", PList [example_entity]); ("approximateCount", PInt 1)]).
Proof.
  apply (lineage_graph_reads_two_keys str_scalar); reflexivity.
Defined.

Lemma lineage_graph_first_error_example :
  lineage_graph str_scalar
    (PDict [("entities", PList [example_entity; PDict [("guid", PStr "a2")]; PNone]);
            ("relations", PNone)]) =
  Raise (KeyError "attributes").
Proof.
  apply (lineage_graph_first_error str_scalar _ [example_entity] [PNone]
           (PDict [("guid", PStr "a2")])); reflexivity.
Defined.

Lemma lineage_graph_non_mapping_example :
  lineage_graph str_scalar (PList [PStr "entity"; PInt 1]) =
  Ok {| nodes := []; edges := [] |}.
Proof.
  apply (proj1 (proj2 (proj2 (proj2 (lineage_graph_non_mapping str_scalar)))));
    reflexivity.
Defined.

Lemma edge_ids_collide_example :
  exists e1 e2,
    lineage_graph str_scalar
      (PDict [("relations",
               PList [PDict [("fromEntityGuid", PStr "db_orders");
                             ("toEntityGuid", PStr "v1")];
                      PDict [("fromEntityGuid", PStr "db");
                             ("toEntityGuid", PStr "orders_v1")]])]) =
      Ok {| nodes := []; edges := [e1; e2] |} /\
    edge_data e1 = PDict [("fromEntityGuid", PStr "db_orders"); ("toEntityGuid", PStr "v1")] /\
    edge_data e2 = PDict [("fromEntityGuid", PStr "db"); ("toEntityGuid", PStr "orders_v1")] /\
    edge_source e1 <> edge_source e2 /\
    edge_id e1 = edge_id e2.
Proof.
  apply (edge_ids_collide str_scalar "db" "orders" "v1"); reflexivity.
Defined.

Lemma create_lineage_payload_cases_example :
  create_lineage_payload str_scalar (PStr "a1") (PStr "a2") PNone (PStr "nightly-load") PNone =
  PDict [("fromEntityGuid", PStr "a1"); ("toEntityGuid", PStr "a2")].
Proof.
  apply (proj1 (proj2 (create_lineage_payload_cases str_scalar (PStr "a1") (PStr "a2")
                         PNone (PStr "nightly-load") PNone))); reflexivity.
Defined.
